(** * RepoDoctor2: branch classification and repository scan

    A shallow embedding of [GitHubClient.classify_branch] and [scan_repo]
    from [github_client.py], with the properties of the classifier and of
    the scanner's ordering, skipping and record construction.

    Python values are modelled as follows.
    - JSON objects with a fixed shape are records; a key read with
      [.get(...)] is an [option] field, a key read with [[...]] is a
      plain field.
    - [int] is [Z]; [str] is [string]; a value that may be [None] is an
      [option].
    - A raised exception is the left injection of [Py.result]; [try] /
      [except] is [Py.try_except].
    - The HTTP collaborator is a record of functions that return a
      response or raise; the wall clock is an explicit reading handed
      to the code that consults it. *)

From Stdlib Require Import ZArith List String Ascii Bool Lia.
From Stdlib Require Import Sorting.Sorted Sorting.Permutation.
Import ListNotations.

Local Open Scope string_scope.
Local Open Scope Z_scope.

(* ================================================================= *)
(** ** Python run-time notions *)

Module Py.

(** The exception classes that the modelled code can meet;
    [RequestException] is the transport error of the [requests]
    library (connection failure, timeout). *)
Inductive exn : Type :=
| ValueError
| TypeError
| KeyError
| RequestException.

(** A computation either raises or returns. *)
Definition result (A : Type) : Type := (exn + A)%type.

Definition ret {A : Type} (a : A) : result A := inr a.

Definition raise {A : Type} (e : exn) : result A := inl e.

Definition bind {A B : Type} (m : result A) (k : A -> result B) : result B :=
  match m with
  | inl e => inl e
  | inr a => k a
  end.

(** [d.get(key, default)] for a key that is an optional field. *)
Definition get {A : Type} (field : option A) (default : A) : A :=
  match field with
  | Some v => v
  | None => default
  end.

(** [d[key]] for a key that may be missing. *)
Definition item {A : Type} (field : option A) : result A :=
  match field with
  | Some v => ret v
  | None => raise KeyError
  end.

(** Truth value of a [str]: the empty string is false. *)
Definition truthy_str (s : string) : bool :=
  match s with
  | EmptyString => false
  | String _ _ => true
  end.

(** [s.replace("Z", "+00:00")]: every occurrence of the one-character
    pattern is replaced, left to right. *)
Fixpoint replace_Z (s : string) : string :=
  match s with
  | EmptyString => EmptyString
  | String c rest =>
      if Ascii.eqb c "Z"%char
      then String "+" (String "0" (String "0" (String ":"
             (String "0" (String "0" (replace_Z rest))))))
      else String c (replace_Z rest)
  end.

(** [s[:n]]. *)
Fixpoint prefix (n : nat) (s : string) : string :=
  match n, s with
  | O, _ => EmptyString
  | S _, EmptyString => EmptyString
  | S n', String c rest => String c (prefix n' rest)
  end.

(** [s.split("\n")[0]]: the text before the first line feed. *)
Fixpoint first_line (s : string) : string :=
  match s with
  | EmptyString => EmptyString
  | String c rest =>
      if Ascii.eqb c "010"%char then EmptyString
      else String c (first_line rest)
  end.

(** [l[-1]] on a list known to be non-empty, given as head and tail. *)
Fixpoint last_item {A : Type} (x : A) (l : list A) : A :=
  match l with
  | [] => x
  | y :: l' => last_item y l'
  end.

(** A [dict] literal with [str] keys, as its list of items, and
    [d.get(key, default)] on it. *)
Fixpoint dict_get {V : Type} (d : list (string * V)) (key : string)
  (default : V) : V :=
  match d with
  | [] => default
  | (k, v) :: d' => if String.eqb k key then v else dict_get d' key default
  end.

(** [x in s] for a set of strings given as the list of its elements. *)
Definition contains (s : list string) (x : string) : bool :=
  existsb (String.eqb x) s.

(** [except (ValueError, TypeError): pass] around a block whose normal
    outcome is [A]: the two classes are swallowed and the block counts
    as having produced [fallthrough]; anything else propagates. *)
Definition try_except {A : Type} (body : result A) (fallthrough : A)
  : result A :=
  match body with
  | inl ValueError => ret fallthrough
  | inl TypeError => ret fallthrough
  | inl e => inl e
  | inr a => inr a
  end.

(** A stable ascending sort by an integer key, as [list.sort(key=...)]
    performs: an element goes in front of the first element whose key is
    not smaller than its own. *)
Fixpoint insort {A : Type} (key : A -> Z) (x : A) (l : list A) : list A :=
  match l with
  | [] => [x]
  | y :: l' =>
      if key x <=? key y then x :: y :: l'
      else y :: insort key x l'
  end.

Fixpoint sort {A : Type} (key : A -> Z) (l : list A) : list A :=
  match l with
  | [] => []
  | x :: l' => insort key x (sort key l')
  end.

End Py.

Notation "x <- m ;; k" := (Py.bind m (fun x => k))
  (at level 61, m at next level, right associativity).

Notation "' p <- m ;; k" := (Py.bind m (fun x => let 'p := x in k))
  (at level 61, p pattern, m at next level, right associativity).

(* ================================================================= *)
(** ** The [datetime] module *)

Module Datetime.

(** A [datetime.datetime]: the wall-clock reading in microseconds
    counted from the start of day 0 of the proleptic Gregorian ordinal,
    and the UTC offset in microseconds when the value is aware. *)
Record datetime : Type := mk_datetime {
  wall : Z;
  utcoffset : option Z
}.

(** A [datetime.timedelta], in microseconds. *)
Definition timedelta : Type := Z.

Definition us_per_second : Z := 1000000.
Definition us_per_day : Z := 86400 * us_per_second.

(** [td.days]: the normalised day count, rounded towards minus
    infinity. *)
Definition days (td : timedelta) : Z := td / us_per_day.

(** [datetime.now(timezone.utc)] when the clock reads [t] microseconds
    of UTC. *)
Definition now_utc (t : Z) : datetime :=
  {| wall := t; utcoffset := Some 0 |}.

(** [a - b]: defined between two aware or two naive values; mixing
    them raises [TypeError]. *)
Definition sub (a b : datetime) : Py.result timedelta :=
  match utcoffset a, utcoffset b with
  | Some oa, Some ob => Py.ret ((wall a - oa) - (wall b - ob))
  | None, None => Py.ret (wall a - wall b)
  | _, _ => Py.raise Py.TypeError
  end.

(** *** Calendar arithmetic *)

Definition is_leap (y : Z) : bool :=
  ((y mod 4 =? 0) && negb (y mod 100 =? 0)) || (y mod 400 =? 0).

Definition days_in_month (y m : Z) : Z :=
  if m =? 2 then (if is_leap y then 29 else 28)
  else if (m =? 4) || (m =? 6) || (m =? 9) || (m =? 11) then 30
  else 31.

Definition days_before_year (y : Z) : Z :=
  let p := y - 1 in p * 365 + p / 4 - p / 100 + p / 400.

Fixpoint days_before_month_aux (y : Z) (n : nat) : Z :=
  match n with
  | O => 0
  | S n' => days_before_month_aux y n' + days_in_month y (Z.of_nat n)
  end.

(** Days of year [y] that precede the first of month [m]. *)
Definition days_before_month (y m : Z) : Z :=
  days_before_month_aux y (Z.to_nat (m - 1)).

(** [date(y, m, d).toordinal()]. *)
Definition ymd2ord (y m d : Z) : Z :=
  days_before_year y + days_before_month y m + d.

(** The wall-clock reading of a calendar date and time of day. *)
Definition wall_of (y m d hh mm ss : Z) : Z :=
  ((ymd2ord y m d * 86400) + hh * 3600 + mm * 60 + ss) * us_per_second.

(** The UTC instant [y-m-d hh:mm:ss], as a clock reading. *)
Definition utc_instant (y m d hh mm ss : Z) : Z := wall_of y m d hh mm ss.

(** *** Reading timestamps *)

Definition digit (c : ascii) : option Z :=
  let n := Z.of_nat (nat_of_ascii c) in
  if (48 <=? n) && (n <=? 57) then Some (n - 48) else None.

(** A run of exactly [n] decimal digits at the front of [s]: its value
    and the rest of the text. *)
Fixpoint digits (n : nat) (acc : Z) (s : string) : option (Z * string) :=
  match n with
  | O => Some (acc, s)
  | S n' =>
      match s with
      | EmptyString => None
      | String c rest =>
          match digit c with
          | Some v => digits n' (acc * 10 + v) rest
          | None => None
          end
      end
  end.

(** One expected character at the front of [s]. *)
Definition expect (c : ascii) (s : string) : option string :=
  match s with
  | EmptyString => None
  | String c' rest => if Ascii.eqb c c' then Some rest else None
  end.

Definition obind {A B : Type} (m : option A) (k : A -> option B)
  : option B :=
  match m with
  | Some a => k a
  | None => None
  end.

(** The offset suffix: nothing (naive), or a sign and [HH:MM]. *)
Definition parse_offset (s : string) : option (option Z) :=
  match s with
  | EmptyString => Some None
  | String c rest =>
      let sign :=
        if Ascii.eqb c "+"%char then Some 1
        else if Ascii.eqb c "-"%char then Some (-1)
        else None in
      obind sign (fun sg =>
      obind (digits 2 0 rest) (fun '(oh, r1) =>
      obind (expect ":"%char r1) (fun r2 =>
      obind (digits 2 0 r2) (fun '(om, r3) =>
      match r3 with
      | EmptyString =>
          if (oh <? 24) && (om <? 60)
          then Some (Some (sg * (oh * 3600 + om * 60) * us_per_second))
          else None
      | String _ _ => None
      end))))
  end.

(** [datetime.fromisoformat] on the timestamp shape this program
    receives, [YYYY-MM-DDTHH:MM:SS] with an optional [+HH:MM] or
    [-HH:MM] offset; [None] stands for the [ValueError] raised on an
    invalid string.  Texts of any other shape are answered [None]
    here: the classifier below takes the parser as a parameter, and
    this one serves its concrete runs. *)
Definition fromisoformat (s : string) : option datetime :=
  obind (digits 4 0 s) (fun '(y, r1) =>
  obind (expect "-"%char r1) (fun r2 =>
  obind (digits 2 0 r2) (fun '(m, r3) =>
  obind (expect "-"%char r3) (fun r4 =>
  obind (digits 2 0 r4) (fun '(d, r5) =>
  obind (expect "T"%char r5) (fun r6 =>
  obind (digits 2 0 r6) (fun '(hh, r7) =>
  obind (expect ":"%char r7) (fun r8 =>
  obind (digits 2 0 r8) (fun '(mm, r9) =>
  obind (expect ":"%char r9) (fun r10 =>
  obind (digits 2 0 r10) (fun '(ss, r11) =>
  obind (parse_offset r11) (fun off =>
  if (1 <=? y) && (1 <=? m) && (m <=? 12) && (1 <=? d)
     && (d <=? days_in_month y m)
     && (hh <? 24) && (mm <? 60) && (ss <? 60)
  then Some {| wall := wall_of y m d hh mm ss; utcoffset := off |}
  else None)))))))))))).

End Datetime.

Import Py.

(* ================================================================= *)
(** ** GitHub payloads *)

(** The [author] and [committer] objects of a git commit. *)
Record git_actor : Type := mk_git_actor {
  actor_name : string;
  actor_date : string
}.

(** The [commit] object nested in a commit entry; [author] and
    [committer] are read with [.get] and may be missing. *)
Record git_commit : Type := mk_git_commit {
  message : string;
  author : option git_actor;
  committer : option git_actor
}.

(** An element of a comparison's [commits] list. *)
Record commit_entry : Type := mk_commit_entry {
  sha : string;
  commit : git_commit
}.

(** An element of a comparison's [files] list. *)
Record file_entry : Type := mk_file_entry {
  filename : string;
  additions : Z;
  deletions : Z;
  status : string
}.

(** The body of a compare response; all four keys are read with
    [.get]. *)
Record comparison : Type := mk_comparison {
  ahead_by : option Z;
  behind_by : option Z;
  commits : option (list commit_entry);
  files : option (list file_entry)
}.

(** An element of the branch listing. *)
Record branch_entry : Type := mk_branch_entry {
  branch_name : string;
  branch_commit_sha : string
}.

(** An element of the pull-request listing. *)
Record pull_entry : Type := mk_pull_entry {
  head_ref : string
}.

(** A repository as the repository listing gives it. *)
Record repo_entry : Type := mk_repo_entry {
  owner_login : string;
  repo_name : string;
  repo_full_name : string;
  repo_default_branch : option string;
  repo_private : option bool;
  repo_html_url : option string;
  repo_description : option string;
  repo_updated_at : option string
}.

(* ================================================================= *)
(** ** The client *)

Module GitHubClient.

(** The HTTP collaborator, one function per method that [scan_repo]
    calls.  A call returns, or raises what the session raises (a
    transport error), which no method catches; [compare_branches]
    returns [None] on any status other than 200. *)
Record t : Type := mk {
  get_branches : string -> string -> result (list branch_entry);
  get_pulls : string -> string -> result (list pull_entry);
  compare_branches : string -> string -> string -> string
                     -> result (option comparison);
  check_claude_md : string -> string -> result bool
}.

Section Classify.

(** [datetime.datetime.fromisoformat]; [None] is its [ValueError]. *)
Variable fromisoformat : string -> option Datetime.datetime.

(** The clock reading, in microseconds of UTC, that
    [datetime.datetime.now(datetime.timezone.utc)] returns during
    the call. *)
Variable clock : Z.

(** The body of the [try] block.  [Some label] is a [return] taken
    inside the block, [None] is reaching its end. *)
Definition staleness_block (ahead : Z) (last_commit_date : string)
  : result (option string) :=
  last_dt <- match fromisoformat (replace_Z last_commit_date) with
             | Some dt => ret dt
             | None => raise ValueError
             end ;;
  let now := Datetime.now_utc clock in
  delta <- Datetime.sub now last_dt ;;
  if (Datetime.days delta >? 30) && (ahead >? 0)
  then ret (Some "STALE")
  else ret None.

Definition classify_branch (comparison : comparison)
  (last_commit_date : option string) (has_pr : bool) : result string :=
  let ahead := get (ahead_by comparison) 0 in
  let behind := get (behind_by comparison) 0 in
  if has_pr then ret "ACTIVE PR"
  else if ahead =? 0 then ret "SAFE TO DELETE"
  else
    returned <-
      match last_commit_date with
      | Some d =>
          if truthy_str d
          then try_except (staleness_block ahead d) None
          else ret None
      | None => ret None
      end ;;
    match returned with
    | Some label => ret label
    | None =>
        if (ahead >? 0) && (behind >? 0) then ret "DIVERGED"
        else if (ahead >? 0) && (behind =? 0) then ret "AHEAD ONLY"
        else ret "AHEAD ONLY"
    end.

(** Whether the staleness rule fires on a date at this clock
    reading: the date is a non-empty text that parses to an aware
    value whose whole-day distance from now exceeds 30. *)
Definition stale (last_commit_date : option string) : bool :=
  match last_commit_date with
  | Some d =>
      truthy_str d &&
      match fromisoformat (replace_Z d) with
      | Some dt =>
          match Datetime.sub (Datetime.now_utc clock) dt with
          | inr delta => Datetime.days delta >? 30
          | inl _ => false
          end
      | None => false
      end
  | None => false
  end.

End Classify.

End GitHubClient.

(** The five labels. *)
Definition labels : list string :=
  ["ACTIVE PR"; "SAFE TO DELETE"; "STALE"; "DIVERGED"; "AHEAD ONLY"].

(* ================================================================= *)
(** ** Scan results *)

(** An element of a record's [files_changed]. *)
Record file_change : Type := mk_file_change {
  fc_filename : string;
  fc_additions : Z;
  fc_deletions : Z;
  fc_status : string
}.

(** An element of a record's [commit_messages]. *)
Record commit_message : Type := mk_commit_message {
  cm_sha : string;
  cm_message : string;
  cm_author : string;
  cm_date : option string
}.

(** The dictionary appended to [branch_data] for one branch. *)
Module BranchRecord.
Record t : Type := mk {
  name : string;
  classification : string;
  ahead_by : Z;
  behind_by : Z;
  last_commit_date : option string;
  last_commit_author : option string;
  has_pr : bool;
  commit_sha : string;
  files_changed : list file_change;
  commit_messages : list commit_message
}.
End BranchRecord.

(** The dictionary that [scan_repo] returns. *)
Module RepoScan.
Record t : Type := mk {
  owner : string;
  name : string;
  full_name : string;
  default_branch : string;
  private : bool;
  html_url : string;
  description : string;
  updated_at : string;
  branches : list BranchRecord.t;
  branch_count : Z;
  has_claude_md : bool
}.
End RepoScan.

(* ================================================================= *)
(** ** [scan_repo] *)

(** The [sort_order] dictionary. *)
Definition sort_order : list (string * Z) :=
  [("DIVERGED", 0); ("AHEAD ONLY", 1); ("STALE", 2);
   ("SAFE TO DELETE", 3); ("ACTIVE PR", 4)].

(** The sort key [lambda b: sort_order.get(b["classification"], 5)]. *)
Definition sort_key (b : BranchRecord.t) : Z :=
  dict_get sort_order (BranchRecord.classification b) 5.

(** Ascending by key. *)
Definition ascending {A : Type} (key : A -> Z) : list A -> Prop :=
  Sorted (fun a b => key a <= key b).

(** The elements whose key is [k], in the order they have in [l]. *)
Definition with_key {A : Type} (key : A -> Z) (k : Z) (l : list A)
  : list A :=
  filter (fun a => key a =? k) l.

(** The [files_changed] list built from a comparison. *)
Definition files_changed_of (cmp : comparison) : list file_change :=
  map (fun f => {| fc_filename := filename f;
                   fc_additions := additions f;
                   fc_deletions := deletions f;
                   fc_status := status f |})
      (get (files cmp) []).

(** The [commit_messages] list built from a comparison. *)
Definition commit_messages_of (cmp : comparison) : list commit_message :=
  map (fun c => {| cm_sha := prefix 7 (sha c);
                   cm_message := first_line (message (commit c));
                   cm_author := match author (commit c) with
                                | Some a => actor_name a
                                | None => "Unknown"
                                end;
                   cm_date := match committer (commit c) with
                              | Some k => Some (actor_date k)
                              | None => None
                              end |})
      (get (commits cmp) []).

(** The pair [(last_commit_date, last_commit_author)] that the loop body
    derives from a comparison: both stay [None] unless the commit list
    is present and non-empty; the committer is indexed without a guard
    and its absence raises. *)
Definition last_commit_of (cmp : comparison)
  : result (option string * option string) :=
  match commits cmp with
  | Some (c0 :: cs) =>
      let last_commit := last_item c0 cs in
      k <- item (committer (commit last_commit)) ;;
      let last_commit_date := actor_date k in
      let last_commit_author :=
        match author (commit last_commit) with
        | Some a => actor_name a
        | None => "Unknown"
        end in
      ret (Some last_commit_date, Some last_commit_author)
  | _ => ret (None, None)
  end.

Section Scan.

Variable fromisoformat : string -> option Datetime.datetime.

(** The clock reading during each iteration of the branch loop,
    counted from 0. *)
Variable clock : nat -> Z.

Variable client : GitHubClient.t.

(** One iteration of the loop over [branches]: [None] is a [continue],
    [Some r] is the record appended to [branch_data]. *)
Definition scan_branch (owner name default_branch : string)
  (pr_branches : list string) (i : nat) (branch : branch_entry)
  : result (option BranchRecord.t) :=
  let bname := branch_name branch in
  if String.eqb bname default_branch then ret None
  else
    comparison <- GitHubClient.compare_branches client owner name
                    default_branch bname ;;
    match comparison with
    | None => ret None
    | Some comparison =>
        '(last_commit_date, last_commit_author) <-
           last_commit_of comparison ;;
        let has_pr := contains pr_branches bname in
        classification <-
          GitHubClient.classify_branch fromisoformat (clock i)
            comparison last_commit_date has_pr ;;
        ret (Some {|
          BranchRecord.name := bname;
          BranchRecord.classification := classification;
          BranchRecord.ahead_by := get (ahead_by comparison) 0;
          BranchRecord.behind_by := get (behind_by comparison) 0;
          BranchRecord.last_commit_date := last_commit_date;
          BranchRecord.last_commit_author := last_commit_author;
          BranchRecord.has_pr := has_pr;
          BranchRecord.commit_sha := branch_commit_sha branch;
          BranchRecord.files_changed := files_changed_of comparison;
          BranchRecord.commit_messages := commit_messages_of comparison
        |})
    end.

(** The loop [for branch in branches], threading the iteration count
    and the accumulated [branch_data]. *)
Fixpoint scan_branches (owner name default_branch : string)
  (pr_branches : list string) (branches : list branch_entry) (i : nat)
  (branch_data : list BranchRecord.t) : result (list BranchRecord.t) :=
  match branches with
  | [] => ret branch_data
  | branch :: rest =>
      step <- scan_branch owner name default_branch pr_branches i branch ;;
      match step with
      | None =>
          scan_branches owner name default_branch pr_branches rest (S i)
            branch_data
      | Some record =>
          scan_branches owner name default_branch pr_branches rest (S i)
            (branch_data ++ [record])%list
      end
  end.

(** [branch_data] as it stands when the loop ends, before the sort. *)
Definition collect (repo : repo_entry) : result (list BranchRecord.t) :=
  let owner := owner_login repo in
  let name := repo_name repo in
  let default_branch := get (repo_default_branch repo) "main" in
  branches <- GitHubClient.get_branches client owner name ;;
  pulls <- GitHubClient.get_pulls client owner name ;;
  let pr_branches := map head_ref pulls in
  scan_branches owner name default_branch pr_branches branches O [].

Definition scan_repo (repo : repo_entry) : result RepoScan.t :=
  let owner := owner_login repo in
  let name := repo_name repo in
  let default_branch := get (repo_default_branch repo) "main" in
  branch_data <- collect repo ;;
  let branch_data := sort sort_key branch_data in
  has_claude_md <- GitHubClient.check_claude_md client owner name ;;
  ret {|
    RepoScan.owner := owner;
    RepoScan.name := name;
    RepoScan.full_name := repo_full_name repo;
    RepoScan.default_branch := default_branch;
    RepoScan.private := get (repo_private repo) false;
    RepoScan.html_url := get (repo_html_url repo) "";
    RepoScan.description := get (repo_description repo) "";
    RepoScan.updated_at := get (repo_updated_at repo) "";
    RepoScan.branches := branch_data;
    RepoScan.branch_count := Z.of_nat (List.length branch_data);
    RepoScan.has_claude_md := has_claude_md
  |}.

(** The branches of the listing that yield a record: not the default
    branch, and the comparison was fetched. *)
Definition fetched (repo : repo_entry) (branch : branch_entry) : bool :=
  negb (String.eqb (branch_name branch)
          (get (repo_default_branch repo) "main"))
  && match GitHubClient.compare_branches client (owner_login repo)
             (repo_name repo) (get (repo_default_branch repo) "main")
             (branch_name branch) with
     | inr (Some _) => true
     | _ => false
     end.

End Scan.

(* ================================================================= *)
(** ** Concrete inputs used by the closed examples *)

Module Demo.

Definition cmp (ahead behind : Z) : comparison :=
  {| ahead_by := Some ahead; behind_by := Some behind;
     commits := None; files := None |}.

(** 2026-02-13T00:00:00 UTC and 2026-03-13T00:00:00 UTC. *)
Definition feb13 : Z := Datetime.utc_instant 2026 2 13 0 0 0.
Definition mar13 : Z := Datetime.utc_instant 2026 3 13 0 0 0.

Definition classify : Z -> comparison -> option string -> bool
                      -> result string :=
  GitHubClient.classify_branch Datetime.fromisoformat.

(** Commit entries: with both actors, without an author, without a
    committer. *)
Definition entry (sha0 msg who date : string) : commit_entry :=
  {| sha := sha0;
     commit := {| message := msg;
                  author := Some {| actor_name := who; actor_date := date |};
                  committer :=
                    Some {| actor_name := who; actor_date := date |} |} |}.

Definition entry_no_author (sha0 msg date : string) : commit_entry :=
  {| sha := sha0;
     commit := {| message := msg;
                  author := None;
                  committer :=
                    Some {| actor_name := "web-flow"; actor_date := date |} |} |}.

Definition entry_no_committer (sha0 msg who date : string) : commit_entry :=
  {| sha := sha0;
     commit := {| message := msg;
                  author := Some {| actor_name := who; actor_date := date |};
                  committer := None |} |}.

(** Compare responses by head ref; any other head is answered with a
    status other than 200. *)
Definition compare (owner name base head : string) : option comparison :=
  if String.eqb head "feature-a" then
    Some {| ahead_by := Some 2; behind_by := Some 1;
            commits := Some [entry "1111111aaaaaaa" "start" "alice"
                               "2026-02-10T10:00:00Z";
                             entry_no_author "2222222bbbbbbb" "merge"
                               "2026-02-12T09:30:00Z"];
            files := Some [{| filename := "app.py"; additions := 10;
                              deletions := 2; status := "modified" |}] |}
  else if String.eqb head "feature-b" then
    Some {| ahead_by := Some 1; behind_by := Some 0;
            commits := Some [entry "3333333ccccccc" "tweak" "bob"
                               "2026-02-12T08:00:00Z"];
            files := None |}
  else if String.eqb head "feature-c" then
    Some {| ahead_by := Some 5; behind_by := Some 3;
            commits := Some [entry "4444444ddddddd" "rework" "carol"
                               "2026-02-11T08:00:00Z"];
            files := None |}
  else if String.eqb head "merged" then
    Some {| ahead_by := Some 0; behind_by := Some 4;
            commits := Some []; files := Some [] |}
  else if String.eqb head "old" then
    Some {| ahead_by := Some 1; behind_by := Some 0;
            commits := Some [entry "5555555eeeeeee" "wip" "dave"
                               "2025-12-01T00:00:00Z"];
            files := None |}
  else if String.eqb head "pr-branch" then
    Some {| ahead_by := Some 3; behind_by := Some 0;
            commits := Some [entry "6666666fffffff" "review me" "erin"
                               "2026-02-12T12:00:00Z"];
            files := None |}
  else if String.eqb head "no-committer" then
    Some {| ahead_by := Some 1; behind_by := Some 0;
            commits := Some [entry_no_committer "7777777ggggggg" "odd"
                               "frank" "2026-02-12T12:00:00Z"];
            files := None |}
  else None.

Definition branch (n : string) : branch_entry :=
  {| branch_name := n; branch_commit_sha := n ++ "-tip" |}.

(** A repository whose listing has the default branch and three others,
    one of which cannot be compared. *)
Definition client3 : GitHubClient.t :=
  {| GitHubClient.get_branches := fun _ _ =>
       ret [branch "main"; branch "feature-a"; branch "broken";
            branch "merged"];
     GitHubClient.get_pulls := fun _ _ => ret [];
     GitHubClient.compare_branches := fun o n b h => ret (compare o n b h);
     GitHubClient.check_claude_md := fun _ _ => ret false |}.


(** A repository with one branch of every label and a failed fetch. *)
Definition client7 : GitHubClient.t :=
  {| GitHubClient.get_branches := fun _ _ =>
       ret [branch "main"; branch "pr-branch"; branch "merged";
            branch "feature-b"; branch "old"; branch "feature-a";
            branch "broken"; branch "feature-c"];
     GitHubClient.get_pulls := fun _ _ =>
       ret [{| head_ref := "pr-branch" |}];
     GitHubClient.compare_branches := fun o n b h => ret (compare o n b h);
     GitHubClient.check_claude_md := fun _ _ => ret true |}.

(** A repository with a commit that carries no committer. *)
Definition client_odd : GitHubClient.t :=
  {| GitHubClient.get_branches := fun _ _ =>
       ret [branch "main"; branch "no-committer"];
     GitHubClient.get_pulls := fun _ _ => ret [];
     GitHubClient.compare_branches := fun o n b h => ret (compare o n b h);
     GitHubClient.check_claude_md := fun _ _ => ret false |}.

Definition repo : repo_entry :=
  {| owner_login := "octo"; repo_name := "demo";
     repo_full_name := "octo/demo"; repo_default_branch := Some "main";
     repo_private := None; repo_html_url := None;
     repo_description := None; repo_updated_at := None |}.

(** The clock advances one second per loop iteration from 13 February
    2026. *)
Definition clock (i : nat) : Z :=
  feb13 + Z.of_nat i * Datetime.us_per_second.

Definition scan (client : GitHubClient.t) : result RepoScan.t :=
  scan_repo Datetime.fromisoformat clock client repo.

(** The name, label and [last_commit_author] of each returned record. *)
Definition summary (s : result RepoScan.t)
  : result (list (string * string * option string)) :=
  res <- s ;;
  ret (map (fun r => (BranchRecord.name r, BranchRecord.classification r,
                      BranchRecord.last_commit_author r))
           (RepoScan.branches res)).

End Demo.

(* ================================================================= *)
(** ** More of the Python run time *)

Module Lst.

(** [l[-n:]] for a positive [n]: the last [n] items, or all of [l] when
    it has fewer. *)
Definition last_n {A : Type} (n : nat) (l : list A) : list A :=
  skipn (List.length l - n) l.

(** [l.sort(key=..., reverse=True)]: the list is reversed, sorted
    ascending by the stable sort, and reversed again, which is how the
    interpreter keeps items of equal key in their original order. *)
Definition sort_reverse {A : Type} (key : A -> Z) (l : list A) : list A :=
  rev (sort key (rev l)).

(** [l[1:-1]]. *)
Definition inner {A : Type} (l : list A) : list A := removelast (tl l).

(** [sum(l)]. *)
Definition sum (l : list Z) : Z := fold_left Z.add l 0.

(** Descending by key. *)
Definition descending {A : Type} (key : A -> Z) : list A -> Prop :=
  Sorted (fun a b => key b <= key a).

End Lst.

(** More of [str]. *)
Module Str.

(** [c in s] for a one-character [c]. *)
Fixpoint has_char (c : ascii) (s : string) : bool :=
  match s with
  | EmptyString => false
  | String c' rest => Ascii.eqb c c' || has_char c rest
  end.

(** [s.startswith(p)]. *)
Fixpoint startswith (p s : string) : bool :=
  match p, s with
  | EmptyString, _ => true
  | String _ _, EmptyString => false
  | String a p', String b s' => Ascii.eqb a b && startswith p' s'
  end.

(** [s.split(sep)] for a one-character separator: the pieces between
    the separators, never an empty list. *)
Fixpoint split (sep : ascii) (s : string) : list string :=
  match s with
  | EmptyString => [EmptyString]
  | String c rest =>
      if Ascii.eqb c sep then EmptyString :: split sep rest
      else
        match split sep rest with
        | [] => [String c EmptyString]
        | piece :: pieces => String c piece :: pieces
        end
  end.

(** [sep.join(l)]. *)
Fixpoint join (sep : string) (l : list string) : string :=
  match l with
  | [] => EmptyString
  | [x] => x
  | x :: rest => x ++ sep ++ join sep rest
  end.

End Str.

(* ================================================================= *)
(** ** Paginated listings *)

Module Paging.

(** An HTTP response to a listing request: its status and the decoded
    JSON array. *)
Record response (A : Type) : Type := mk_response {
  status_code : Z;
  json : list A
}.

Arguments mk_response {A} _ _.
Arguments status_code {A} _.
Arguments json {A} _.

(** An element of the tag listing. *)
Record tag_entry : Type := mk_tag_entry {
  tag_name : string;
  tag_commit_sha : string
}.

(** The listing endpoints of the session, each answering a page
    number. *)
Record session : Type := mk_session {
  user_repos : Z -> response repo_entry;
  repo_branches : string -> string -> Z -> response branch_entry;
  repo_tags : string -> string -> Z -> response tag_entry
}.

(** The loop shared by [get_repos], [get_branches] and [get_tags]:
    [while True] over the pages, leaving on a status other than 200 or
    on an empty batch.  [fuel] bounds the number of requests; [None]
    means the loop is still running when it is used up. *)
Fixpoint pages {A : Type} (get : Z -> response A) (fuel : nat) (page : Z)
  (items : list A) : option (list A) :=
  match fuel with
  | O => None
  | S fuel' =>
      let resp := get page in
      if negb (status_code resp =? 200) then Some items
      else
        let batch := json resp in
        match batch with
        | [] => Some items
        | _ :: _ => pages get fuel' (page + 1) (items ++ batch)%list
        end
  end.

Definition get_repos (s : session) (fuel : nat) : option (list repo_entry) :=
  pages (user_repos s) fuel 1 [].

Definition get_branches (s : session) (owner repo : string) (fuel : nat)
  : option (list branch_entry) :=
  pages (repo_branches s owner repo) fuel 1 [].

Definition get_tags (s : session) (owner repo : string) (fuel : nat)
  : option (list tag_entry) :=
  pages (repo_tags s owner repo) fuel 1 [].

(** A page that keeps the loop going. *)
Definition more {A : Type} (get : Z -> response A) (page : Z) : Prop :=
  status_code (get page) = 200 /\ json (get page) <> [].

(** A page that ends the loop. *)
Definition last_page {A : Type} (get : Z -> response A) (page : Z) : Prop :=
  status_code (get page) <> 200 \/ json (get page) = [].

(** The batches of pages [1 .. n], concatenated in page order. *)
Definition batches {A : Type} (get : Z -> response A) (n : nat) : list A :=
  List.concat (map (fun i => json (get (1 + Z.of_nat i))) (seq 0 n)).

End Paging.

(* ================================================================= *)
(** ** The scan of all repositories ([app.scan]) *)

Module App.

(** An element of [results]: the dictionary [scan_repo] returned, or the
    one built in the [except] branch, which has no [updated_at] and
    carries [error]. *)
Module ScanEntry.
Record t : Type := mk {
  owner : string;
  name : string;
  full_name : string;
  default_branch : string;
  private : bool;
  html_url : string;
  description : string;
  updated_at : option string;
  branches : list BranchRecord.t;
  branch_count : Z;
  has_claude_md : bool;
  error : option string
}.
End ScanEntry.

(** The [_scan_results] dictionary. *)
Module ScanResults.
Record t : Type := mk {
  repos : list ScanEntry.t;
  total_repos : Z;
  total_branches : Z
}.
End ScanResults.

(** The dictionary of a scan that returned, as an element of
    [results]. *)
Definition of_repo_data (d : RepoScan.t) : ScanEntry.t :=
  {| ScanEntry.owner := RepoScan.owner d;
     ScanEntry.name := RepoScan.name d;
     ScanEntry.full_name := RepoScan.full_name d;
     ScanEntry.default_branch := RepoScan.default_branch d;
     ScanEntry.private := RepoScan.private d;
     ScanEntry.html_url := RepoScan.html_url d;
     ScanEntry.description := RepoScan.description d;
     ScanEntry.updated_at := Some (RepoScan.updated_at d);
     ScanEntry.branches := RepoScan.branches d;
     ScanEntry.branch_count := RepoScan.branch_count d;
     ScanEntry.has_claude_md := RepoScan.has_claude_md d;
     ScanEntry.error := None |}.

(** The dictionary appended when the scan of [repo] raised; [message] is
    [str(e)]. *)
Definition failed_entry (repo : repo_entry) (message : string)
  : ScanEntry.t :=
  {| ScanEntry.owner := owner_login repo;
     ScanEntry.name := repo_name repo;
     ScanEntry.full_name := repo_full_name repo;
     ScanEntry.default_branch := get (repo_default_branch repo) "main";
     ScanEntry.private := get (repo_private repo) false;
     ScanEntry.html_url := get (repo_html_url repo) "";
     ScanEntry.description := get (repo_description repo) "";
     ScanEntry.updated_at := None;
     ScanEntry.branches := [];
     ScanEntry.branch_count := 0;
     ScanEntry.has_claude_md := false;
     ScanEntry.error := Some message |}.

(** [repo["full_name"] in excluded or repo["name"] in excluded]. *)
Definition is_excluded (excluded : list string) (repo : repo_entry) : bool :=
  contains excluded (repo_full_name repo)
  || contains excluded (repo_name repo).

Section Scan.

Variable fromisoformat : string -> option Datetime.datetime.

(** The clock readings during the scan of the [i]-th listed repository,
    one per iteration of its branch loop. *)
Variable clocks : nat -> nat -> Z.

Variable client : GitHubClient.t.

(** [str(e)] for a caught exception. *)
Variable exn_str : exn -> string.

(** The body of [try] / [except Exception] for one repository. *)
Definition scan_one (i : nat) (repo : repo_entry) : ScanEntry.t :=
  match scan_repo fromisoformat (clocks i) client repo with
  | inr repo_data => of_repo_data repo_data
  | inl e => failed_entry repo (exn_str e)
  end.

(** The loop [for repo in repos], threading the position in the listing
    and the accumulated [results]. *)
Fixpoint scan_repos (excluded : list string) (repos : list repo_entry)
  (i : nat) (results : list ScanEntry.t) : list ScanEntry.t :=
  match repos with
  | [] => results
  | repo :: rest =>
      if is_excluded excluded repo
      then scan_repos excluded rest (S i) results
      else scan_repos excluded rest (S i)
             (results ++ [scan_one i repo])%list
  end.

(** The computation of [_scan_results] in the [scan] route:
    [excluded_repos] is the preference of that name when the key is
    present, [repos] is what [client.get_repos()] returned. *)
Definition scan (excluded_repos : option (list string))
  (repos : list repo_entry) : ScanResults.t :=
  let excluded := get excluded_repos [] in
  let results := scan_repos excluded repos O [] in
  let results := Lst.sort_reverse ScanEntry.branch_count results in
  {| ScanResults.repos := results;
     ScanResults.total_repos := Z.of_nat (List.length results);
     ScanResults.total_branches :=
       Lst.sum (map ScanEntry.branch_count results) |}.

End Scan.

End App.

(* ================================================================= *)
(** ** Concrete inputs for the listings and the scan of all
       repositories *)

Module DemoApp.

Definition repo_named (n : string) : repo_entry :=
  {| owner_login := "octo"; repo_name := n;
     repo_full_name := "octo/" ++ n; repo_default_branch := Some "main";
     repo_private := None; repo_html_url := None;
     repo_description := None; repo_updated_at := None |}.

(** Two pages of repositories, then an empty page; branches whose
    third page answers 500; tags that never end. *)
Definition session : Paging.session :=
  {| Paging.user_repos := fun page =>
       if page =? 1 then
         Paging.mk_response 200 [repo_named "demo"; repo_named "skipme"]
       else if page =? 2 then
         Paging.mk_response 200 [repo_named "odd"; repo_named "big"]
       else Paging.mk_response 200 [];
     Paging.repo_branches := fun _ _ page =>
       if page =? 1 then
         Paging.mk_response 200 [Demo.branch "main"; Demo.branch "feature-a"]
       else if page =? 2 then
         Paging.mk_response 200 [Demo.branch "merged"]
       else Paging.mk_response 500 [Demo.branch "never-seen"];
     Paging.repo_tags := fun _ _ page =>
       Paging.mk_response 200
         [{| Paging.tag_name := "v1"; Paging.tag_commit_sha := "abc" |}] |}.

(** A client that answers by repository name. *)
Definition pick (n : string) : GitHubClient.t :=
  if String.eqb n "odd" then Demo.client_odd
  else if String.eqb n "big" then Demo.client7
  else Demo.client3.

Definition client : GitHubClient.t :=
  {| GitHubClient.get_branches := fun o n =>
       GitHubClient.get_branches (pick n) o n;
     GitHubClient.get_pulls := fun o n =>
       GitHubClient.get_pulls (pick n) o n;
     GitHubClient.compare_branches := fun o n b h =>
       ret (Demo.compare o n b h);
     GitHubClient.check_claude_md := fun o n =>
       GitHubClient.check_claude_md (pick n) o n |}.

Definition exn_str (e : exn) : string :=
  match e with
  | KeyError => "'committer'"
  | ValueError => "ValueError"
  | TypeError => "TypeError"
  | RequestException => "Connection aborted."
  end.

Definition repos : list repo_entry :=
  [repo_named "demo"; repo_named "skipme"; repo_named "odd";
   repo_named "big"].

Definition scan : App.ScanResults.t :=
  App.scan Datetime.fromisoformat (fun _ => Demo.clock) client exn_str
    (Some ["skipme"]) repos.

End DemoApp.

(* ================================================================= *)
(** ** Archive tags *)

Module Archive.

(** The two POST requests of [create_archive_tag], with the fields of
    their JSON bodies. *)
Inductive request : Type :=
| CreateTag (owner repo tag message object type : string)
| CreateRef (owner repo ref sha : string).

(** A response to a POST: its status and the [sha] of its JSON body. *)
Record post_response : Type := mk_post_response {
  post_status : Z;
  post_sha : string
}.

(** The dictionary [create_archive_tag] returns. *)
Record archive_tag : Type := mk_archive_tag {
  tag_name : string;
  sha : string;
  date : string
}.

(** [status_code in (200, 201)]. *)
Definition accepted (status : Z) : bool :=
  (status =? 200) || (status =? 201).

(** [GitHubClient.create_archive_tag]: [post] is the session, [today] is
    [datetime.date.today().isoformat()]; the result comes with the
    requests sent, in order. *)
Definition create_archive_tag (post : request -> post_response)
  (today owner repo branch_name commit_sha message : string)
  : list request * option archive_tag :=
  let tag_name := "archive/" ++ branch_name ++ "/" ++ today in
  let tag_request :=
    CreateTag owner repo tag_name message commit_sha "commit" in
  let resp := post tag_request in
  if negb (accepted (post_status resp)) then ([tag_request], None)
  else
    let tag_data_sha := post_sha resp in
    let ref_request :=
      CreateRef owner repo ("refs/tags/" ++ tag_name) tag_data_sha in
    let ref_resp := post ref_request in
    if negb (accepted (post_status ref_resp))
    then ([tag_request; ref_request], None)
    else ([tag_request; ref_request],
          Some {| tag_name := tag_name; sha := commit_sha;
                  date := today |}).

(** What the [archive] route makes of a tag name: nothing when the name
    does not start with [archive/], else a branch name and an archive
    date; [IndexError] stands for [parts[1]] on a list too short. *)
Inductive parsed : Type :=
| NotArchive
| Archived (branch_name archive_date : string)
| IndexError.

Definition parse_tag_name (name : string) : parsed :=
  if Str.startswith "archive/" name then
    let parts := Str.split "/" name in
    if (2 <? List.length parts)%nat
    then Archived (Str.join "/" (Lst.inner parts)) (last parts "")
    else
      match nth_error parts 1 with
      | Some part => Archived part "Unknown"
      | None => IndexError
      end
  else NotArchive.

End Archive.

(* ================================================================= *)
(** ** Dictionaries with text keys *)

Module Dict.

(** A [dict] as the list of its items in insertion order; keys are
    unique in every dictionary built by [set] from the empty one. *)
Definition t (V : Type) : Type := list (string * V).

(** [d.get(key)]. *)
Fixpoint lookup {V : Type} (d : t V) (key : string) : option V :=
  match d with
  | [] => None
  | (k, v) :: d' => if String.eqb k key then Some v else lookup d' key
  end.

(** [key in d]. *)
Definition mem {V : Type} (d : t V) (key : string) : bool :=
  match lookup d key with
  | Some _ => true
  | None => false
  end.

(** [d[key] = value]: the value of an existing key is replaced where it
    stands, a new key goes to the end. *)
Fixpoint set {V : Type} (d : t V) (key : string) (value : V) : t V :=
  match d with
  | [] => [(key, value)]
  | (k, v) :: d' =>
      if String.eqb k key then (k, value) :: d'
      else (k, v) :: set d' key value
  end.

(** Truth value of a [dict]: the empty one is false. *)
Definition truthy {V : Type} (d : t V) : bool :=
  match d with
  | [] => false
  | _ :: _ => true
  end.

End Dict.

(* ================================================================= *)
(** ** Local storage ([models.py]) *)

Module Models.

(** A JSON file is [None] when it does not exist and otherwise holds
    the decoded value; [_load_json] answers an empty dictionary for a
    missing file and [_save_json] replaces the content. *)

(** *** Scan history *)

(** A scan as stored: the scan data and the [timestamp] key. *)
Record stored_scan : Type := mk_stored_scan {
  scan_data : App.ScanResults.t;
  timestamp : option string
}.

(** The content of [scan_history.json]. *)
Record history : Type := mk_history {
  scans : list stored_scan
}.

(** [_load_json(SCAN_PATH) or {"scans": []}]. *)
Definition get_scan_history (file : option history) : history :=
  match file with
  | Some h => h
  | None => {| scans := [] |}
  end.

(** [save_scan]: [now] is the ISO text of the current UTC time; the
    result is the new content of the file. *)
Definition save_scan (now : string) (data : stored_scan)
  (file : option history) : option history :=
  let history := get_scan_history file in
  let data := {| scan_data := scan_data data; timestamp := Some now |} in
  let appended := (scans history ++ [data])%list in
  Some {| scans := Lst.last_n 50 appended |}.

Definition get_latest_scan (file : option history) : option stored_scan :=
  let history := get_scan_history file in
  match scans history with
  | [] => None
  | s :: rest => Some (last_item s rest)
  end.

(** *** Analysis cache *)

Section Cache.

(** The JSON values of an analysis, with the text values among them. *)
Variable value : Type.
Variable text : string -> value.

Definition analysis : Type := Dict.t value.

(** [f"{repo_name}/{branch_name}/{commit_sha}"]. *)
Definition cache_key (repo_name branch_name commit_sha : string) : string :=
  repo_name ++ "/" ++ branch_name ++ "/" ++ commit_sha.

(** [_load_json(CACHE_PATH) or {}]. *)
Definition get_analysis_cache (file : option (Dict.t analysis))
  : Dict.t analysis :=
  match file with
  | Some cache => cache
  | None => []
  end.

Definition cache_analysis (now : string)
  (repo_name branch_name commit_sha : string) (a : analysis)
  (file : option (Dict.t analysis)) : option (Dict.t analysis) :=
  let cache := get_analysis_cache file in
  let key := cache_key repo_name branch_name commit_sha in
  let a := Dict.set a "_cached_at" (text now) in
  Some (Dict.set cache key a).

Definition get_cached_analysis (repo_name branch_name commit_sha : string)
  (file : option (Dict.t analysis)) : option analysis :=
  let cache := get_analysis_cache file in
  let key := cache_key repo_name branch_name commit_sha in
  Dict.lookup cache key.

End Cache.

(** *** Preferences *)

(** The values of the preferences: texts and lists of texts. *)
Inductive pref : Type :=
| PText (s : string)
| PList (l : list string).

Definition DEFAULT_PREFS : Dict.t pref :=
  [("local_root", PText "~/claudesync2");
   ("sort_repos_by", PText "branch_count");
   ("sort_branches_by", PText "classification");
   ("excluded_repos", PList []);
   ("ai_model", PText "claude-haiku-4-5-20251001");
   ("display_mode", PText "plain_english")].

(** The loop [for k, v in DEFAULT_PREFS.items()] that adds the missing
    keys. *)
Fixpoint fill (defaults : Dict.t pref) (prefs : Dict.t pref) : Dict.t pref :=
  match defaults with
  | [] => prefs
  | (k, v) :: rest =>
      if negb (Dict.mem prefs k) then fill rest (Dict.set prefs k v)
      else fill rest prefs
  end.

(** [get_preferences]: the preferences returned and the content of the
    file afterwards. *)
Definition get_preferences (file : option (Dict.t pref))
  : Dict.t pref * option (Dict.t pref) :=
  let prefs := match file with Some d => d | None => [] end in
  let '(prefs, file) :=
    if negb (Dict.truthy prefs) then (DEFAULT_PREFS, Some DEFAULT_PREFS)
    else (prefs, file) in
  (fill DEFAULT_PREFS prefs, file).

(** *** Action log *)

Record action : Type := mk_action {
  action_type : string;
  action_repo : string;
  action_branch : string;
  action_details : string;
  action_timestamp : string
}.

(** The content of [action_log.json]: a bare list, or a dictionary that
    may hold [actions]. *)
Inductive log_json : Type :=
| LogList (l : list action)
| LogDict (actions : option (list action)).

Definition get_action_log (file : option log_json) : list action :=
  let data := match file with Some d => d | None => LogDict None end in
  match data with
  | LogList l => l
  | LogDict actions => get actions []
  end.

Definition log_action (now : string) (action_type repo branch details : string)
  (file : option log_json) : option log_json :=
  let actions := get_action_log file in
  let actions :=
    (actions ++ [{| action_type := action_type; action_repo := repo;
                    action_branch := branch; action_details := details;
                    action_timestamp := now |}])%list in
  Some (LogDict (Some actions)).

(** *** Session cost *)

Section Cost.

(** [float], with its zero, its addition and [round(x, 4)]. *)
Variable float : Type.
Variable zero : float.
Variable add_float : float -> float -> float.
Variable round4 : float -> float.

(** The attributes of a [SessionCost]. *)
Record SessionCost : Type := mk_session_cost {
  total_input_tokens : Z;
  total_output_tokens : Z;
  total_cost : float;
  analyses_count : Z
}.

(** [SessionCost()]. *)
Definition new_session_cost : SessionCost :=
  {| total_input_tokens := 0; total_output_tokens := 0;
     total_cost := zero; analyses_count := 0 |}.

(** [self.add(input_tokens, output_tokens, cost)]. *)
Definition add (self : SessionCost) (input_tokens output_tokens : Z)
  (cost : float) : SessionCost :=
  {| total_input_tokens := total_input_tokens self + input_tokens;
     total_output_tokens := total_output_tokens self + output_tokens;
     total_cost := add_float (total_cost self) cost;
     analyses_count := analyses_count self + 1 |}.

(** [self.to_dict()], as the values of its four keys. *)
Definition to_dict (self : SessionCost) : Z * Z * float * Z :=
  (total_input_tokens self, total_output_tokens self,
   round4 (total_cost self), analyses_count self).

End Cost.

End Models.

(* ================================================================= *)
(** ** The handling of the model's answer ([ai_analyzer.analyze_branch]) *)

Module Analyzer.

(** What [analyze_branch] reads of the message the API returns:
    [content[0].text] and the two token counts of [usage]. *)
Record api_message : Type := mk_api_message {
  text : string;
  input_tokens : Z;
  output_tokens : Z
}.

(** Lines 133-135: a text that starts with a code fence loses its first
    and its last line. *)
Definition unfence (response_text : string) : string :=
  if Str.startswith "```" response_text then
    let lines := Str.split "010" response_text in
    Str.join (String "010" "") (Lst.inner lines)
  else response_text.

Section Analyze.

(** JSON values, with the ones the code builds itself. *)
Variable value : Type.
Variable v_text : string -> value.
Variable v_none : value.
Variable v_usage : Z -> Z -> string -> value.

(** [str.strip]. *)
Variable strip : string -> string.

(** [json.loads]: [None] is its [JSONDecodeError]; a decoded value is
    [Some d] when it is an object and [None] when it is any other JSON
    value. *)
Variable loads : string -> option (option (Dict.t value)).

(** The dictionary built in the [except json.JSONDecodeError] branch. *)
Definition fallback (response_text branch_name : string) : Dict.t value :=
  [("plain_english_summary", v_text response_text);
   ("feature_assessment", v_text "UNCLEAR");
   ("risk_level", v_text "MEDIUM");
   ("conflict_prediction", v_text "Unable to parse AI response");
   ("merge_strategy", v_text "merge");
   ("claude_code_instructions",
    v_text ("# AI analysis returned non-JSON response."
            ++ String "010" "# Manual review recommended for "
            ++ branch_name));
   ("spec_alignment", v_none)].

(** [analyze_branch] from the message on: [message] is what
    [client.messages.create] returned for the prompt of the branch
    named [branch_name].  Assigning [_usage] into a decoded value that
    is not an object raises [TypeError]. *)
Definition analyze_branch (message : api_message)
  (branch_name model : string) : result (Dict.t value) :=
  let response_text := strip (text message) in
  let response_text := unfence response_text in
  let result :=
    match loads response_text with
    | Some decoded => decoded
    | None => Some (fallback response_text branch_name)
    end in
  match result with
  | Some d =>
      ret (Dict.set d "_usage"
             (v_usage (input_tokens message) (output_tokens message) model))
  | None => raise TypeError
  end.

End Analyze.

End Analyzer.

(* ================================================================= *)
(** ** The classifier *)

Section ClassifierFacts.

Variable parse : string -> option Datetime.datetime.
Variable t : Z.

Local Abbreviation classify := (GitHubClient.classify_branch parse t).
Local Abbreviation stale := (GitHubClient.stale parse t).

(** The try block raises nothing but the two classes its handler
    swallows, and returns [STALE] exactly when the rule fires. *)
Lemma staleness_block_guarded (ahead : Z) (d : string) :
  truthy_str d = true ->
  try_except (GitHubClient.staleness_block parse t ahead d) None
  = inr (if stale (Some d) && (ahead >? 0) then Some "STALE" else None).
Proof.
  intros Hd. unfold GitHubClient.staleness_block, GitHubClient.stale.
  rewrite Hd. cbn [andb].
  destruct (parse (replace_Z d)) as [dt|]; cbn; [|reflexivity].
  unfold Datetime.sub. cbn [Datetime.now_utc Datetime.utcoffset].
  destruct (Datetime.utcoffset dt) as [off|]; cbn; [|reflexivity].
  destruct (_ >? 30); cbn; [|reflexivity].
  destruct (ahead >? 0); reflexivity.
Qed.

(** The classifier as a decision list: it always returns, and the
    label is fixed by the PR flag, the two counts and whether the
    staleness rule fires. *)
Lemma classify_branch_rules (c : comparison) (d : option string)
  (p : bool) :
  classify c d p =
  inr (if p then "ACTIVE PR"
       else if get (ahead_by c) 0 =? 0 then "SAFE TO DELETE"
       else if stale d && (get (ahead_by c) 0 >? 0) then "STALE"
       else if (get (ahead_by c) 0 >? 0) && (get (behind_by c) 0 >? 0)
            then "DIVERGED"
       else "AHEAD ONLY").
Proof.
  unfold GitHubClient.classify_branch.
  destruct p; [reflexivity|].
  destruct (get (ahead_by c) 0 =? 0); [reflexivity|].
  destruct d as [d|].
  - destruct (truthy_str d) eqn:Hd.
    + rewrite (staleness_block_guarded _ _ Hd). cbn [bind].
      destruct (stale (Some d) && _); [reflexivity|].
      destruct (_ && (get (behind_by c) 0 >? 0)); [reflexivity|].
      destruct (_ && (get (behind_by c) 0 =? 0)); reflexivity.
    + assert (Hs : stale (Some d) = false).
      { unfold GitHubClient.stale. rewrite Hd. reflexivity. }
      rewrite Hs. cbn.
      destruct (_ && (get (behind_by c) 0 >? 0)); [reflexivity|].
      destruct (_ && (get (behind_by c) 0 =? 0)); reflexivity.
  - cbn.
    destruct (_ && (get (behind_by c) 0 >? 0)); [reflexivity|].
    destruct (_ && (get (behind_by c) 0 =? 0)); reflexivity.
Qed.

(** A date that does not parse never fires the staleness rule. *)
Lemma stale_unparsable (s : string) :
  parse (replace_Z s) = None -> stale (Some s) = false.
Proof.
  intros H. unfold GitHubClient.stale. rewrite H.
  apply andb_false_r.
Qed.

(** The rule fires exactly on a non-empty date that parses to an aware
    value at least 31 whole days before the clock reading. *)
Lemma stale_iff (s : string) :
  stale (Some s) = true <->
  truthy_str s = true /\
  exists dt off,
    parse (replace_Z s) = Some dt /\
    Datetime.utcoffset dt = Some off /\
    31 * Datetime.us_per_day <= t - (Datetime.wall dt - off).
Proof.
  assert (Hd : 0 < Datetime.us_per_day) by reflexivity.
  unfold GitHubClient.stale, Datetime.sub.
  cbn [Datetime.now_utc Datetime.utcoffset Datetime.wall].
  split.
  - intros H. apply andb_true_iff in H. destruct H as [Hs H].
    split; [exact Hs|].
    destruct (parse (replace_Z s)) as [dt|]; [|discriminate].
    destruct (Datetime.utcoffset dt) as [off|] eqn:Hoff; [|discriminate].
    exists dt, off. repeat split; try assumption.
    cbn in H. apply Z.gtb_lt in H. unfold Datetime.days in H.
    pose proof (Z.mul_div_le (t - 0 - (Datetime.wall dt - off)) _ Hd).
    nia.
  - intros [Hs (dt & off & Hp & Hoff & Hage)].
    rewrite Hs, Hp, Hoff. cbn. apply Z.gtb_lt. unfold Datetime.days.
    assert (31 <= (t - 0 - (Datetime.wall dt - off)) / Datetime.us_per_day).
    { apply Z.div_le_lower_bound; [exact Hd|]. lia. }
    lia.
Qed.

End ClassifierFacts.

(** C1. With an open pull request the label is [ACTIVE PR], whatever
    the counts, the date, the parser and the clock reading; in
    particular a branch with an open PR and zero commits ahead and
    behind is [ACTIVE PR] and not [SAFE TO DELETE]. *)
Theorem classify_branch_open_pr :
  forall (parse : string -> option Datetime.datetime) (t : Z)
         (c : comparison) (d : option string),
    GitHubClient.classify_branch parse t c d true = inr "ACTIVE PR"
    /\ GitHubClient.classify_branch parse t
         {| ahead_by := Some 0; behind_by := Some 0;
            commits := commits c; files := files c |} d true
       = inr "ACTIVE PR"
    /\ GitHubClient.classify_branch parse t
         {| ahead_by := Some 0; behind_by := Some 0;
            commits := commits c; files := files c |} d true
       <> inr "SAFE TO DELETE".
Proof.
  intros parse t c d. repeat split; try reflexivity.
  rewrite classify_branch_rules. discriminate.
Qed.

(** C2, at the boundary.  A branch one commit ahead whose last commit
    is 30 days and 12 hours older than the clock reading parses, is
    aware, is more than 30 days old, and is still labelled
    [AHEAD ONLY]: the rule compares the whole-day count with 30. *)
Theorem classify_branch_stale_boundary :
  exists dt,
    Datetime.fromisoformat (replace_Z "2026-01-13T12:00:00Z") = Some dt
    /\ Datetime.sub (Datetime.now_utc Demo.feb13) dt
       = inr (30 * Datetime.us_per_day + 12 * 3600 * Datetime.us_per_second)
    /\ Demo.classify Demo.feb13 (Demo.cmp 1 0)
         (Some "2026-01-13T12:00:00Z") false
       = inr "AHEAD ONLY".
Proof.
  eexists. split; [vm_compute; reflexivity|].
  split; vm_compute; reflexivity.
Qed.

(** C3, counterexample.  Three ahead, two behind, no open PR, last
    commit 74 days old: the label is [STALE], not [DIVERGED]. *)
Lemma classify_branch_diverged_counterexample :
  0 < get (ahead_by (Demo.cmp 3 2)) 0
  /\ 0 < get (behind_by (Demo.cmp 3 2)) 0
  /\ Demo.classify Demo.feb13 (Demo.cmp 3 2)
       (Some "2025-12-01T00:00:00Z") false
     = inr "STALE"
  /\ Demo.classify Demo.feb13 (Demo.cmp 3 2)
       (Some "2025-12-01T00:00:00Z") false
     <> inr "DIVERGED".
Proof.
  repeat split; try reflexivity.
  vm_compute. discriminate.
Qed.

(** The staleness rule does not fire on a date that is absent, empty,
    unparsable, without a UTC offset, or not more than 30 days before
    the clock reading. *)
Lemma stale_skipped (parse : string -> option Datetime.datetime) (t : Z)
  (d : option string) :
  d = None
  \/ (exists s,
         d = Some s
         /\ (truthy_str s = false
             \/ parse (replace_Z s) = None
             \/ exists dt,
                  parse (replace_Z s) = Some dt
                  /\ (Datetime.utcoffset dt = None
                      \/ exists off,
                           Datetime.utcoffset dt = Some off
                           /\ t - (Datetime.wall dt - off)
                              <= 30 * Datetime.us_per_day))) ->
  GitHubClient.stale parse t d = false.
Proof.
  intros [->|(s & -> & H)]; [reflexivity|].
  unfold GitHubClient.stale.
  destruct H as [Hs|[Hp|(dt & Hp & H)]].
  - rewrite Hs. reflexivity.
  - rewrite Hp. apply andb_false_r.
  - rewrite Hp. apply andb_false_iff. right.
    unfold Datetime.sub.
    cbn [Datetime.now_utc Datetime.utcoffset Datetime.wall].
    destruct H as [Ho|(off & Ho & Hage)]; rewrite Ho; [reflexivity|].
    cbn. unfold Datetime.days.
    destruct (Z.gtb_spec ((t - 0 - (Datetime.wall dt - off))
                          / Datetime.us_per_day) 30) as [Hgt|_];
      [|reflexivity].
    assert (Hd : 0 < Datetime.us_per_day) by reflexivity.
    assert ((t - 0 - (Datetime.wall dt - off)) / Datetime.us_per_day <= 30).
    { apply Z.div_le_upper_bound; [exact Hd|]. lia. }
    lia.
Qed.

(** C3, amended.  Without an open PR and with both counts positive, the
    label is [DIVERGED] when the date is absent, empty, unparsable,
    without a UTC offset, or not more than 30 days before the clock
    reading, and [STALE] when the date parses to a value with a UTC
    offset that lies at least 31 days before the clock reading. *)
Theorem classify_branch_diverged :
  forall (parse : string -> option Datetime.datetime) (t : Z)
         (c : comparison) (d : option string),
    0 < get (ahead_by c) 0 ->
    0 < get (behind_by c) 0 ->
    (d = None
     \/ (exists s,
            d = Some s
            /\ (truthy_str s = false
                \/ parse (replace_Z s) = None
                \/ exists dt,
                     parse (replace_Z s) = Some dt
                     /\ (Datetime.utcoffset dt = None
                         \/ exists off,
                              Datetime.utcoffset dt = Some off
                              /\ t - (Datetime.wall dt - off)
                                 <= 30 * Datetime.us_per_day))) ->
     GitHubClient.classify_branch parse t c d false = inr "DIVERGED")
    /\ (forall s dt off,
          d = Some s ->
          truthy_str s = true ->
          parse (replace_Z s) = Some dt ->
          Datetime.utcoffset dt = Some off ->
          31 * Datetime.us_per_day <= t - (Datetime.wall dt - off) ->
          GitHubClient.classify_branch parse t c d false = inr "STALE").
Proof.
  intros parse t c d Ha Hb.
  assert (Hne : (get (ahead_by c) 0 =? 0) = false)
    by (apply Z.eqb_neq; lia).
  apply Z.gtb_lt in Ha, Hb. split.
  - intros Hs. apply stale_skipped in Hs.
    rewrite classify_branch_rules, Hne, Hs, Ha, Hb. reflexivity.
  - intros s dt off -> Ht Hp Ho Hage.
    assert (Hs : GitHubClient.stale parse t (Some s) = true).
    { apply stale_iff. split; [exact Ht|]. exists dt, off. tauto. }
    rewrite classify_branch_rules, Hne, Hs, Ha. reflexivity.
Qed.

Lemma classify_branch_diverged_witness :
  Demo.classify Demo.feb13 (Demo.cmp 3 2)
    (Some "2026-02-01T00:00:00Z") false
  = inr "DIVERGED"
  /\ Demo.classify Demo.feb13 (Demo.cmp 3 2)
       (Some "2025-12-01T00:00:00Z") false
     = inr "STALE".
Proof.
  split.
  - apply (proj1 (classify_branch_diverged Datetime.fromisoformat
                    Demo.feb13 (Demo.cmp 3 2)
                    (Some "2026-02-01T00:00:00Z")
                    ltac:(reflexivity) ltac:(reflexivity))).
    right. eexists. split; [reflexivity|]. right. right.
    eexists. split; [vm_compute; reflexivity|]. right.
    eexists. split; [reflexivity|]. vm_compute. discriminate.
  - apply (proj2 (classify_branch_diverged Datetime.fromisoformat
                    Demo.feb13 (Demo.cmp 3 2)
                    (Some "2025-12-01T00:00:00Z")
                    ltac:(reflexivity) ltac:(reflexivity))
             "2025-12-01T00:00:00Z"
             {| Datetime.wall := Datetime.wall_of 2025 12 1 0 0 0;
                Datetime.utcoffset := Some 0 |} 0).
    + reflexivity.
    + reflexivity.
    + vm_compute. reflexivity.
    + reflexivity.
    + vm_compute. discriminate.
Defined.

(** C7. The classifier returns for every input, and what it returns is
    one of the five labels; a date that does not parse leaves the label
    that the same call gives with no date at all; with a date that is
    absent, empty or unparsable the staleness rule is skipped and the
    label is the one the remaining rules give: [ACTIVE PR] with an open
    PR, else [SAFE TO DELETE] when not ahead, else [DIVERGED] when ahead
    and behind, else [AHEAD ONLY]. *)
Theorem classify_branch_never_raises :
  forall (parse : string -> option Datetime.datetime) (t : Z)
         (c : comparison) (d : option string) (p : bool),
    (exists label,
        GitHubClient.classify_branch parse t c d p = inr label
        /\ In label labels)
    /\ (forall s, d = Some s -> parse (replace_Z s) = None ->
          GitHubClient.classify_branch parse t c d p
          = GitHubClient.classify_branch parse t c None p)
    /\ (d = None
        \/ (exists s,
               d = Some s
               /\ (truthy_str s = false \/ parse (replace_Z s) = None)) ->
        GitHubClient.classify_branch parse t c d p
        = inr (if p then "ACTIVE PR"
               else if get (ahead_by c) 0 =? 0 then "SAFE TO DELETE"
               else if (get (ahead_by c) 0 >? 0)
                       && (get (behind_by c) 0 >? 0)
                    then "DIVERGED"
               else "AHEAD ONLY")).
Proof.
  intros parse t c d p. split; [|split].
  - rewrite classify_branch_rules. eexists. split; [reflexivity|].
    unfold labels.
    destruct p; [cbn; tauto|].
    destruct (_ =? 0); [cbn; tauto|].
    destruct (_ && _); [cbn; tauto|].
    destruct (_ && _); cbn; tauto.
  - intros s -> Hparse.
    rewrite !classify_branch_rules, (stale_unparsable _ _ _ Hparse).
    reflexivity.
  - intros H.
    assert (Hs : GitHubClient.stale parse t d = false).
    { apply stale_skipped. destruct H as [->|(s & -> & [Hs|Hp])].
      - left. reflexivity.
      - right. exists s. split; [reflexivity|]. left. exact Hs.
      - right. exists s. split; [reflexivity|]. right. left. exact Hp. }
    rewrite classify_branch_rules, Hs. reflexivity.
Qed.

Lemma classify_branch_never_raises_witness :
  Demo.classify Demo.feb13 (Demo.cmp 3 2) (Some "not a date") false
  = Demo.classify Demo.feb13 (Demo.cmp 3 2) None false
  /\ Demo.classify Demo.feb13 (Demo.cmp 3 2) (Some "not a date") false
     = inr "DIVERGED"
  /\ Demo.classify Demo.feb13 (Demo.cmp 3 0) (Some "not a date") false
     = inr "AHEAD ONLY".
Proof.
  split; [|split].
  - apply (proj1 (proj2 (classify_branch_never_raises
                           Datetime.fromisoformat Demo.feb13
                           (Demo.cmp 3 2) (Some "not a date") false))
             "not a date").
    + reflexivity.
    + vm_compute. reflexivity.
  - apply (proj2 (proj2 (classify_branch_never_raises
                           Datetime.fromisoformat Demo.feb13
                           (Demo.cmp 3 2) (Some "not a date") false))).
    right. exists "not a date". split; [reflexivity|]. right.
    vm_compute. reflexivity.
  - apply (proj2 (proj2 (classify_branch_never_raises
                           Datetime.fromisoformat Demo.feb13
                           (Demo.cmp 3 0) (Some "not a date") false))).
    right. exists "not a date". split; [reflexivity|]. right.
    vm_compute. reflexivity.
Defined.

(** C8, counterexample.  The same comparison, date and PR flag give
    [AHEAD ONLY] on 13 February and [STALE] on 13 March. *)
Lemma classify_branch_clock_counterexample :
  Demo.classify Demo.feb13 (Demo.cmp 1 0)
    (Some "2026-02-01T00:00:00Z") false
  = inr "AHEAD ONLY"
  /\ Demo.classify Demo.mar13 (Demo.cmp 1 0)
       (Some "2026-02-01T00:00:00Z") false
     = inr "STALE"
  /\ Demo.classify Demo.feb13 (Demo.cmp 1 0)
       (Some "2026-02-01T00:00:00Z") false
     <> Demo.classify Demo.mar13 (Demo.cmp 1 0)
          (Some "2026-02-01T00:00:00Z") false.
Proof.
  repeat split; try (vm_compute; reflexivity).
  vm_compute. discriminate.
Qed.

(** C8, amended.  The label is a function of the three inputs and of
    the clock reading: two calls on the same inputs agree whenever the
    staleness rule has the same outcome at both readings, and whenever
    the branch has an open PR or is not ahead, where no reading is
    consulted. *)
Theorem classify_branch_clock_dependence :
  forall (parse : string -> option Datetime.datetime) (t1 t2 : Z)
         (c : comparison) (d : option string) (p : bool),
    p = true \/ get (ahead_by c) 0 = 0
    \/ GitHubClient.stale parse t1 d = GitHubClient.stale parse t2 d ->
    GitHubClient.classify_branch parse t1 c d p
    = GitHubClient.classify_branch parse t2 c d p.
Proof.
  intros parse t1 t2 c d p H. rewrite !classify_branch_rules.
  destruct H as [-> | [H | H]].
  - reflexivity.
  - rewrite H. destruct p; reflexivity.
  - rewrite H. reflexivity.
Qed.

Lemma classify_branch_clock_dependence_witness :
  Demo.classify Demo.feb13 (Demo.cmp 3 2)
    (Some "2025-12-01T00:00:00Z") false
  = Demo.classify Demo.mar13 (Demo.cmp 3 2)
      (Some "2025-12-01T00:00:00Z") false.
Proof.
  apply (classify_branch_clock_dependence Datetime.fromisoformat
           Demo.feb13 Demo.mar13 (Demo.cmp 3 2)
           (Some "2025-12-01T00:00:00Z") false).
  right. right. vm_compute. reflexivity.
Defined.

(** C10. A missing [ahead_by] or [behind_by] counts as 0, and a
    comparison without [ahead_by] and without an open PR is
    [SAFE TO DELETE]. *)
Theorem classify_branch_missing_counts :
  forall (parse : string -> option Datetime.datetime) (t : Z)
         (a b : option Z) (cs : option (list commit_entry))
         (fs : option (list file_entry)) (d : option string) (p : bool),
    GitHubClient.classify_branch parse t
      {| ahead_by := None; behind_by := b; commits := cs; files := fs |}
      d p
    = GitHubClient.classify_branch parse t
        {| ahead_by := Some 0; behind_by := b; commits := cs; files := fs |}
        d p
    /\ GitHubClient.classify_branch parse t
         {| ahead_by := a; behind_by := None; commits := cs; files := fs |}
         d p
       = GitHubClient.classify_branch parse t
           {| ahead_by := a; behind_by := Some 0; commits := cs;
              files := fs |}
           d p
    /\ GitHubClient.classify_branch parse t
         {| ahead_by := None; behind_by := b; commits := cs; files := fs |}
         d false
       = inr "SAFE TO DELETE".
Proof.
  intros. repeat split.
Qed.

(* ================================================================= *)
(** ** The stable sort *)

Section SortFacts.

Context {A : Type}.
Variable key : A -> Z.

Lemma insort_with_key (k : Z) (x : A) (l : list A) :
  with_key key k (insort key x l) = with_key key k (x :: l).
Proof.
  induction l as [|y l IH]; [reflexivity|].
  cbn [insort]. destruct (Z.leb_spec (key x) (key y)) as [Hle|Hlt].
  - reflexivity.
  - unfold with_key in *. cbn [filter] in *. rewrite IH.
    destruct (Z.eqb_spec (key y) k) as [Ey|Ny];
      destruct (Z.eqb_spec (key x) k) as [Ex|Nx];
      try reflexivity.
    lia.
Qed.

(** Stability: for every key, the elements carrying it keep their
    relative order. *)
Lemma sort_with_key (k : Z) (l : list A) :
  with_key key k (sort key l) = with_key key k l.
Proof.
  induction l as [|x l IH]; [reflexivity|].
  cbn [sort]. rewrite insort_with_key.
  unfold with_key in *. cbn [filter]. rewrite IH. reflexivity.
Qed.

Lemma insort_ascending (x : A) (l : list A) :
  ascending key l -> ascending key (insort key x l).
Proof.
  unfold ascending. induction l as [|y l IH]; intros Hs.
  - cbn. constructor; constructor.
  - cbn [insort]. destruct (Z.leb_spec (key x) (key y)) as [Hle|Hlt].
    + constructor; [exact Hs|]. constructor. exact Hle.
    + inversion Hs as [|? ? Hs' Hhd]; subst.
      constructor; [apply IH; exact Hs'|].
      destruct l as [|z l]; cbn [insort].
      * constructor. lia.
      * destruct (Z.leb_spec (key x) (key z)).
        -- constructor. lia.
        -- constructor. inversion Hhd; subst. assumption.
Qed.

Lemma sort_ascending (l : list A) : ascending key (sort key l).
Proof.
  induction l as [|x l IH]; cbn [sort].
  - constructor.
  - apply insort_ascending. exact IH.
Qed.

Lemma insort_permutation (x : A) (l : list A) :
  Permutation (x :: l) (insort key x l).
Proof.
  induction l as [|y l IH]; cbn [insort]; [reflexivity|].
  destruct (key x <=? key y); [reflexivity|].
  etransitivity; [apply perm_swap|]. constructor. exact IH.
Qed.

Lemma sort_permutation (l : list A) : Permutation l (sort key l).
Proof.
  induction l as [|x l IH]; cbn [sort]; [reflexivity|].
  etransitivity; [|apply insort_permutation]. constructor. exact IH.
Qed.

(** Sorting a list that is already ascending changes nothing. *)
Lemma sort_ascending_id (l : list A) : ascending key l -> sort key l = l.
Proof.
  unfold ascending. induction l as [|x l IH]; intros Hs; [reflexivity|].
  inversion Hs as [|? ? Hs' Hhd]; subst.
  cbn [sort]. rewrite (IH Hs').
  destruct l as [|y l]; [reflexivity|].
  inversion Hhd; subst. cbn [insort].
  destruct (Z.leb_spec (key x) (key y)); [reflexivity|lia].
Qed.

Lemma sort_idempotent (l : list A) :
  sort key (sort key l) = sort key l.
Proof. apply sort_ascending_id, sort_ascending. Qed.

(** In an ascending list the head carries the least key. *)
Lemma ascending_head_least (x : A) (l : list A) :
  ascending key (x :: l) -> Forall (fun y => key x <= key y) l.
Proof.
  unfold ascending. intros Hs.
  apply Sorted_StronglySorted in Hs.
  - inversion Hs; subst. assumption.
  - intros a b c. lia.
Qed.

Lemma in_with_key (k : Z) (x : A) (l : list A) :
  In x (with_key key k l) <-> In x l /\ key x = k.
Proof.
  unfold with_key. rewrite filter_In, Z.eqb_eq. reflexivity.
Qed.

(** A stable ascending rearrangement is unique: two ascending lists
    that hold, for every key, the same elements in the same order are
    equal.  Hence [sort key l] is the only stable ascending
    rearrangement of [l], whatever algorithm [list.sort] runs. *)
Lemma stable_sort_unique (l1 l2 : list A) :
  ascending key l1 -> ascending key l2 ->
  (forall k, with_key key k l1 = with_key key k l2) ->
  l1 = l2.
Proof.
  revert l2. induction l1 as [|x l1 IH]; intros l2 H1 H2 Hk.
  - destruct l2 as [|y l2]; [reflexivity|].
    specialize (Hk (key y)). unfold with_key in Hk. cbn [filter] in Hk.
    rewrite Z.eqb_refl in Hk. discriminate.
  - destruct l2 as [|y l2].
    + specialize (Hk (key x)). unfold with_key in Hk. cbn [filter] in Hk.
      rewrite Z.eqb_refl in Hk. discriminate.
    + assert (Hxy : key x = key y).
      { pose proof (ascending_head_least _ _ H1) as L1.
        pose proof (ascending_head_least _ _ H2) as L2.
        rewrite Forall_forall in L1, L2.
        assert (Iy : In y (x :: l1)).
        { apply (proj1 (in_with_key (key y) y (x :: l1))).
          rewrite Hk. apply in_with_key. split; [left|]; reflexivity. }
        assert (Ix : In x (y :: l2)).
        { apply (proj1 (in_with_key (key x) x (y :: l2))).
          rewrite <- Hk. apply in_with_key. split; [left|]; reflexivity. }
        destruct Iy as [Ey|Iy]; [subst; reflexivity|].
        destruct Ix as [Ex|Ix]; [subst; reflexivity|].
        specialize (L1 _ Iy). specialize (L2 _ Ix). lia. }
      pose proof (Hk (key x)) as Hkx. unfold with_key in Hkx.
      cbn [filter] in Hkx. rewrite <- Hxy, Z.eqb_refl in Hkx.
      injection Hkx as Exy Htl. subst y. f_equal.
      apply IH.
      * inversion H1; assumption.
      * inversion H2; assumption.
      * intros k. specialize (Hk k). unfold with_key in *.
        cbn [filter] in Hk.
        destruct (key x =? k); [injection Hk as Hk|]; exact Hk.
Qed.

End SortFacts.

(* ================================================================= *)
(** ** The branch loop *)

Section LoopFacts.

Variable parse : string -> option Datetime.datetime.
Variable clock : nat -> Z.
Variable client : GitHubClient.t.
Variables owner name default_branch : string.
Variable pr_branches : list string.

Local Abbreviation body :=
  (scan_branch parse clock client owner name default_branch pr_branches).
Local Abbreviation loop :=
  (scan_branches parse clock client owner name default_branch pr_branches).
Local Abbreviation compare :=
  (GitHubClient.compare_branches client owner name default_branch).

(** The listed branches that the loop does not pass over. *)
Local Abbreviation kept :=
  (fun b : branch_entry =>
     negb (String.eqb (branch_name b) default_branch)
     && match compare (branch_name b) with
        | inr (Some _) => true
        | _ => false
        end).




(** What an iteration that appends a record has done. *)
Lemma scan_branch_appended (i : nat) (b : branch_entry)
  (r : BranchRecord.t) :
  body i b = inr (Some r) ->
  String.eqb (branch_name b) default_branch = false
  /\ exists cmp,
       compare (branch_name b) = inr (Some cmp)
       /\ BranchRecord.name r = branch_name b
       /\ last_commit_of cmp
          = inr (BranchRecord.last_commit_date r,
                 BranchRecord.last_commit_author r)
       /\ GitHubClient.classify_branch parse (clock i) cmp
            (BranchRecord.last_commit_date r)
            (contains pr_branches (branch_name b))
          = inr (BranchRecord.classification r).
Proof.
  unfold scan_branch.
  destruct (String.eqb (branch_name b) default_branch); [discriminate|].
  destruct (compare (branch_name b)) as [e|[cmp|]]; try discriminate.
  cbn [bind]. intros H. split; [reflexivity|].
  exists cmp. split; [reflexivity|].
  destruct (last_commit_of cmp) as [e|[d a]]; [discriminate|].
  cbn [bind] in H.
  destruct (GitHubClient.classify_branch parse (clock i) cmp d
              (contains pr_branches (branch_name b))) as [e|label] eqn:Hc;
    [discriminate|].
  cbn [bind ret] in H. injection H as <-. cbn.
  repeat split. exact Hc.
Qed.

(** An iteration that passes over a branch met the default branch or a
    fetch without a comparison. *)
Lemma scan_branch_passed (i : nat) (b : branch_entry) :
  body i b = inr None -> kept b = false.
Proof.
  unfold scan_branch. cbv beta.
  destruct (String.eqb (branch_name b) default_branch); [reflexivity|].
  destruct (compare (branch_name b)) as [e|[cmp|]]; try reflexivity.
  cbn [bind].
  destruct (last_commit_of cmp) as [e|[d a]]; [discriminate|].
  cbn [bind]. rewrite classify_branch_rules. discriminate.
Qed.


(** The loop appends, in listing order, one record per kept branch. *)
Lemma scan_branches_appends (branches : list branch_entry) :
  forall (i : nat) (acc out : list BranchRecord.t),
    loop branches i acc = inr out ->
    exists added,
      out = (acc ++ added)%list
      /\ Forall2 (fun b r => exists j, body j b = inr (Some r))
           (filter kept branches) added.
Proof.
  induction branches as [|b rest IH]; intros i acc out H.
  - cbn in H. injection H as <-. exists []. split.
    + symmetry. apply app_nil_r.
    + constructor.
  - cbn [scan_branches] in H.
    destruct (body i b) as [e|[r|]] eqn:Hb; cbn [bind] in H.
    + discriminate.
    + destruct (IH _ _ _ H) as (added & -> & HF).
      exists (r :: added). split.
      * rewrite <- app_assoc. reflexivity.
      * assert (Hk : kept b = true).
        { destruct (scan_branch_appended _ _ _ Hb) as (Hd & cmp & Hc & _).
          rewrite Hd, Hc. reflexivity. }
        cbn [filter]. rewrite Hk.
        constructor; [exists i; exact Hb|exact HF].
    + destruct (IH _ _ _ H) as (added & -> & HF).
      exists added. split; [reflexivity|].
      cbn [filter]. rewrite (scan_branch_passed _ _ Hb). exact HF.
Qed.



End LoopFacts.

(* ================================================================= *)
(** ** The scan of one repository *)

Section ScanFacts.

Variable parse : string -> option Datetime.datetime.
Variable clock : nat -> Z.
Variable client : GitHubClient.t.
Variable repo : repo_entry.

Local Abbreviation default :=
  (get (repo_default_branch repo) "main").
Local Abbreviation body pulls :=
  (scan_branch parse clock client (owner_login repo) (repo_name repo)
     default (map head_ref pulls)).

(** When the branch loop has run, the two listings had returned. *)
Lemma collect_listings (bd : list BranchRecord.t) :
  collect parse clock client repo = inr bd ->
  exists listing pulls,
    GitHubClient.get_branches client (owner_login repo) (repo_name repo)
    = inr listing
    /\ GitHubClient.get_pulls client (owner_login repo) (repo_name repo)
       = inr pulls
    /\ scan_branches parse clock client (owner_login repo) (repo_name repo)
         default (map head_ref pulls) listing O []
       = inr bd.
Proof.
  unfold collect.
  destruct (GitHubClient.get_branches client (owner_login repo)
              (repo_name repo)) as [e|listing]; [discriminate|].
  destruct (GitHubClient.get_pulls client (owner_login repo)
              (repo_name repo)) as [e|pulls]; [discriminate|].
  cbn [bind]. intros H. exists listing, pulls. repeat split. exact H.
Qed.

(** [branch_data] before the sort holds, in listing order, one record
    per fetched branch. *)
Lemma collect_records (bd : list BranchRecord.t) :
  collect parse clock client repo = inr bd ->
  exists listing pulls,
    GitHubClient.get_branches client (owner_login repo) (repo_name repo)
    = inr listing
    /\ GitHubClient.get_pulls client (owner_login repo) (repo_name repo)
       = inr pulls
    /\ Forall2 (fun b r => exists j, body pulls j b = inr (Some r))
         (filter (fetched client repo) listing) bd.
Proof.
  intros H. destruct (collect_listings bd H) as (listing & pulls & Hl & Hp & Hs).
  exists listing, pulls. split; [exact Hl|]. split; [exact Hp|].
  destruct (scan_branches_appends _ _ _ _ _ _ _ _ _ _ _ Hs)
    as (added & -> & HF).
  exact HF.
Qed.

(** What a returned scan is made of. *)
Lemma scan_repo_returned (res : RepoScan.t) :
  scan_repo parse clock client repo = inr res ->
  exists bd,
    collect parse clock client repo = inr bd
    /\ RepoScan.branches res = sort sort_key bd
    /\ RepoScan.branch_count res
       = Z.of_nat (List.length (sort sort_key bd))
    /\ RepoScan.default_branch res = default.
Proof.
  unfold scan_repo.
  destruct (collect parse clock client repo) as [e|bd]; [discriminate|].
  cbn [bind].
  destruct (GitHubClient.check_claude_md client (owner_login repo)
              (repo_name repo)) as [e|flag]; [discriminate|].
  cbn [bind ret]. intros H. injection H as <-.
  exists bd. repeat split.
Qed.


End ScanFacts.

(** Every element of the second list of a [Forall2] has a partner in
    the first. *)
Lemma Forall2_partner {A B : Type} (P : A -> B -> Prop)
  (l : list A) (l' : list B) :
  Forall2 P l l' -> Forall (fun y => exists x, In x l /\ P x y) l'.
Proof.
  induction 1 as [|x y l l' Hxy _ IH]; constructor.
  - exists x. split; [left; reflexivity|exact Hxy].
  - apply Forall_impl with (2 := IH).
    intros b (a & Ha & Hab). exists a. split; [right|]; assumption.
Qed.

(** Two lists related pointwise by equal images have equal maps. *)
Lemma Forall2_map_eq {A B C : Type} (f : A -> C) (g : B -> C)
  (l : list A) (l' : list B) :
  Forall2 (fun x y => g y = f x) l l' -> map g l' = map f l.
Proof.
  induction 1 as [|x y l l' Hxy _ IH]; cbn; [reflexivity|].
  rewrite Hxy, IH. reflexivity.
Qed.

(** The key of each label, and of anything else. *)
Lemma sort_key_table (r : BranchRecord.t) :
  (BranchRecord.classification r = "DIVERGED" -> sort_key r = 0)
  /\ (BranchRecord.classification r = "AHEAD ONLY" -> sort_key r = 1)
  /\ (BranchRecord.classification r = "STALE" -> sort_key r = 2)
  /\ (BranchRecord.classification r = "SAFE TO DELETE" -> sort_key r = 3)
  /\ (BranchRecord.classification r = "ACTIVE PR" -> sort_key r = 4)
  /\ (~ In (BranchRecord.classification r) labels -> sort_key r = 5).
Proof.
  unfold sort_key.
  repeat split; try (intros ->; reflexivity).
  intros Hout. unfold sort_order. cbn [dict_get].
  repeat match goal with
         | |- context [String.eqb ?a ?b] =>
             destruct (String.eqb_spec a b) as [E|_];
             [exfalso; apply Hout; rewrite <- E; cbn; tauto|]
         end.
  reflexivity.
Qed.

(** C4. The branches of a returned scan ascend by the key
    DIVERGED 0, AHEAD ONLY 1, STALE 2, SAFE TO DELETE 3, ACTIVE PR 4,
    anything else 5; the records of each key stand in the order in which
    the loop built them, which is the order of the branch listing; and
    sorting the result again leaves it as it is. *)
Theorem scan_repo_sorted_stable :
  forall (parse : string -> option Datetime.datetime) (clock : nat -> Z)
         (client : GitHubClient.t) (repo : repo_entry) (res : RepoScan.t),
    scan_repo parse clock client repo = inr res ->
    ascending sort_key (RepoScan.branches res)
    /\ (forall r,
          (BranchRecord.classification r = "DIVERGED" -> sort_key r = 0)
          /\ (BranchRecord.classification r = "AHEAD ONLY" -> sort_key r = 1)
          /\ (BranchRecord.classification r = "STALE" -> sort_key r = 2)
          /\ (BranchRecord.classification r = "SAFE TO DELETE"
              -> sort_key r = 3)
          /\ (BranchRecord.classification r = "ACTIVE PR" -> sort_key r = 4)
          /\ (~ In (BranchRecord.classification r) labels
              -> sort_key r = 5))
    /\ (exists listing bd,
          GitHubClient.get_branches client (owner_login repo)
            (repo_name repo) = inr listing
          /\ collect parse clock client repo = inr bd
          /\ map BranchRecord.name bd
             = map branch_name (filter (fetched client repo) listing)
          /\ forall k,
               with_key sort_key k (RepoScan.branches res)
               = with_key sort_key k bd)
    /\ sort sort_key (RepoScan.branches res) = RepoScan.branches res.
Proof.
  intros parse clock client repo res H.
  destruct (scan_repo_returned _ _ _ _ _ H) as (bd & Hc & Hb & _ & _).
  rewrite Hb. split; [apply sort_ascending|].
  split; [exact sort_key_table|].
  split; [|apply sort_idempotent].
  destruct (collect_records _ _ _ _ _ Hc) as (listing & pulls & Hl & _ & HF).
  exists listing, bd. split; [exact Hl|]. split; [exact Hc|]. split.
  - apply Forall2_map_eq.
    apply Forall2_impl with (2 := HF).
    intros b r [j Hj].
    apply scan_branch_appended in Hj.
    destruct Hj as (_ & cmp & _ & Hn & _). exact Hn.
  - intros k. apply sort_with_key.
Qed.

Lemma scan_repo_sorted_stable_witness :
  exists res,
    Demo.scan Demo.client7 = inr res
    /\ ascending sort_key (RepoScan.branches res)
    /\ map BranchRecord.name (with_key sort_key 0 (RepoScan.branches res))
       = ["feature-a"; "feature-c"]
    /\ sort sort_key (RepoScan.branches res) = RepoScan.branches res.
Proof.
  eexists. split; [vm_compute; reflexivity|].
  match goal with
  | |- ascending _ (RepoScan.branches ?r) /\ _ =>
      destruct (scan_repo_sorted_stable Datetime.fromisoformat Demo.clock
                  Demo.client7 Demo.repo r)
        as (Hasc & _ & _ & Hid); [vm_compute; reflexivity|]
  end.
  split; [exact Hasc|]. split; [vm_compute; reflexivity|exact Hid].
Defined.




(** C6. In a returned scan no record carries the name of the default
    branch, and [branch_count] is the length of [branches]. *)
Theorem scan_repo_invariant :
  forall (parse : string -> option Datetime.datetime) (clock : nat -> Z)
         (client : GitHubClient.t) (repo : repo_entry) (res : RepoScan.t),
    scan_repo parse clock client repo = inr res ->
    Forall (fun r => BranchRecord.name r <> RepoScan.default_branch res)
      (RepoScan.branches res)
    /\ RepoScan.branch_count res
       = Z.of_nat (List.length (RepoScan.branches res)).
Proof.
  intros parse clock client repo res H.
  destruct (scan_repo_returned _ _ _ _ _ H) as (bd & Hc & Hb & Hn & Hd).
  rewrite Hb, Hn, Hd. split; [|reflexivity].
  apply Permutation_Forall with (1 := sort_permutation sort_key bd).
  destruct (collect_records _ _ _ _ _ Hc) as (listing & pulls & _ & _ & HF).
  apply Forall_impl with (2 := Forall2_partner _ _ _ HF).
  intros r (b & _ & j & Hj).
  apply scan_branch_appended in Hj.
  destruct Hj as (Hneq & cmp & _ & Hname & _).
  rewrite Hname. intros E. rewrite E, String.eqb_refl in Hneq.
  discriminate.
Qed.

Lemma scan_repo_invariant_witness :
  exists res,
    Demo.scan Demo.client7 = inr res
    /\ Forall (fun r => BranchRecord.name r <> "main")
         (RepoScan.branches res)
    /\ RepoScan.branch_count res = 6.
Proof.
  eexists. split; [vm_compute; reflexivity|].
  match goal with
  | |- Forall _ (RepoScan.branches ?r) /\ _ =>
      destruct (scan_repo_invariant Datetime.fromisoformat Demo.clock
                  Demo.client7 Demo.repo r) as [Hno Hcount];
        [vm_compute; reflexivity|]
  end.
  split; [exact Hno|]. rewrite Hcount. vm_compute. reflexivity.
Defined.

(** C9, counterexample.  The record of a branch whose comparison lists
    no commit has [None] as its [last_commit_author]. *)
Lemma scan_repo_author_counterexample :
  Demo.summary (Demo.scan Demo.client3)
  = inr [("feature-a", "DIVERGED", Some "Unknown");
         ("merged", "SAFE TO DELETE", None)].
Proof. vm_compute. reflexivity. Qed.

(** C9, amended.  In every record of a returned scan,
    [last_commit_author] is [None] when the branch's comparison has no
    commit list or an empty one, and otherwise the author name of the
    last commit of that list, or [Unknown] when that commit has no
    author. *)
Theorem scan_repo_last_commit_author :
  forall (parse : string -> option Datetime.datetime) (clock : nat -> Z)
         (client : GitHubClient.t) (repo : repo_entry) (res : RepoScan.t),
    scan_repo parse clock client repo = inr res ->
    exists listing,
      GitHubClient.get_branches client (owner_login repo) (repo_name repo)
      = inr listing
      /\ Forall
           (fun r =>
              exists b cmp,
                In b listing
                /\ branch_name b = BranchRecord.name r
                /\ GitHubClient.compare_branches client (owner_login repo)
                     (repo_name repo)
                     (get (repo_default_branch repo) "main")
                     (branch_name b) = inr (Some cmp)
                /\ BranchRecord.last_commit_author r
                   = match commits cmp with
                     | Some (c0 :: cs) =>
                         Some match author (commit (last_item c0 cs)) with
                              | Some a => actor_name a
                              | None => "Unknown"
                              end
                     | _ => None
                     end)
           (RepoScan.branches res).
Proof.
  intros parse clock client repo res H.
  destruct (scan_repo_returned _ _ _ _ _ H) as (bd & Hc & Hb & _ & _).
  rewrite Hb.
  destruct (collect_records _ _ _ _ _ Hc) as (listing & pulls & Hl & _ & HF).
  exists listing. split; [exact Hl|].
  apply Permutation_Forall with (1 := sort_permutation sort_key bd).
  apply Forall_impl with (2 := Forall2_partner _ _ _ HF).
  intros r (b & Hin & j & Hj).
  apply filter_In in Hin. destruct Hin as [Hin _].
  apply scan_branch_appended in Hj.
  destruct Hj as (_ & cmp & Hcmp & Hname & Hlast & _).
  exists b, cmp. repeat split;
    [exact Hin|symmetry; exact Hname|exact Hcmp|].
  unfold last_commit_of in Hlast.
  destruct (commits cmp) as [[|c0 cs]|].
  - injection Hlast as _ <-. reflexivity.
  - destruct (committer (commit (last_item c0 cs))); [|discriminate].
    cbn in Hlast. injection Hlast as _ <-. reflexivity.
  - injection Hlast as _ <-. reflexivity.
Qed.

Lemma scan_repo_last_commit_author_witness :
  exists res,
    Demo.scan Demo.client3 = inr res
    /\ Forall
         (fun r =>
            BranchRecord.last_commit_author r = None
            \/ exists a, BranchRecord.last_commit_author r = Some a)
         (RepoScan.branches res)
    /\ map BranchRecord.last_commit_author (RepoScan.branches res)
       = [Some "Unknown"; None].
Proof.
  eexists. split; [vm_compute; reflexivity|].
  match goal with
  | |- Forall _ (RepoScan.branches ?r) /\ _ =>
      destruct (scan_repo_last_commit_author Datetime.fromisoformat
                  Demo.clock Demo.client3 Demo.repo r
                  ltac:(vm_compute; reflexivity))
        as (listing & _ & Hall)
  end.
  split; [|vm_compute; reflexivity].
  apply Forall_impl with (2 := Hall).
  intros r (b & cmp & _ & _ & _ & Ha). rewrite Ha.
  destruct (commits cmp) as [[|c0 cs]|]; [left|right; eexists|left];
    reflexivity.
Defined.

(* ================================================================= *)
(** ** Paginated listings *)

Section PagingFacts.

Context {A : Type}.
Variable get : Z -> Paging.response A.

(** The batches of [n] consecutive pages starting at [page]. *)
Local Abbreviation run page n :=
  (List.concat
     (map (fun i => Paging.json (get (page + Z.of_nat i))) (seq 0 n))).

Lemma run_step (page : Z) (n : nat) :
  run page (S n)
  = (Paging.json (get page) ++ run (page + 1) n)%list.
Proof.
  cbn [seq map List.concat]. rewrite Z.add_0_r. f_equal.
  rewrite <- seq_shift, map_map. f_equal. apply map_ext.
  intros i. do 2 f_equal. lia.
Qed.

(** With [n] pages that continue and a page that stops after them, any
    fuel above [n] lets the loop return the [n] batches. *)
Lemma pages_collects (n : nat) :
  forall (fuel : nat) (page : Z) (items : list A),
    (forall i, (i < n)%nat -> Paging.more get (page + Z.of_nat i)) ->
    Paging.last_page get (page + Z.of_nat n) ->
    (n < fuel)%nat ->
    Paging.pages get fuel page items = Some (items ++ run page n)%list.
Proof.
  induction n as [|n IH]; intros fuel page items Hmore Hlast Hfuel.
  - destruct fuel as [|fuel]; [lia|]. cbn [Paging.pages].
    rewrite Z.add_0_r in Hlast. cbn. rewrite app_nil_r.
    destruct Hlast as [Hs|Hj].
    + destruct (Z.eqb_spec (Paging.status_code (get page)) 200);
        [contradiction|reflexivity].
    + rewrite Hj. destruct (negb _); reflexivity.
  - destruct fuel as [|fuel]; [lia|]. cbn [Paging.pages].
    destruct (Hmore O ltac:(lia)) as [Hs Hj]. rewrite Z.add_0_r in Hs, Hj.
    rewrite Hs. cbn [Z.eqb Pos.eqb negb].
    destruct (Paging.json (get page)) as [|x batch] eqn:Hb;
      [contradiction|].
    rewrite run_step, Hb, app_assoc. apply IH.
    + intros i Hi. replace (page + 1 + Z.of_nat i)
        with (page + Z.of_nat (S i)) by lia.
      apply Hmore. lia.
    + replace (page + 1 + Z.of_nat n) with (page + Z.of_nat (S n)) by lia.
      exact Hlast.
    + lia.
Qed.

(** Whatever the loop returns is made of the batches of the pages that
    precede the first page that stops it. *)
Lemma pages_returned (fuel : nat) :
  forall (page : Z) (items out : list A),
    Paging.pages get fuel page items = Some out ->
    exists n,
      (n < fuel)%nat
      /\ (forall i, (i < n)%nat -> Paging.more get (page + Z.of_nat i))
      /\ Paging.last_page get (page + Z.of_nat n)
      /\ out = (items ++ run page n)%list.
Proof.
  induction fuel as [|fuel IH]; intros page items out H; [discriminate|].
  cbn [Paging.pages] in H.
  destruct (Z.eqb_spec (Paging.status_code (get page)) 200) as [Hs|Hs];
    cbn [negb] in H.
  - destruct (Paging.json (get page)) as [|x batch] eqn:Hb.
    + injection H as <-. exists O. rewrite Z.add_0_r.
      split; [lia|]. split; [intros i Hi; lia|].
      split; [right; exact Hb|].
      cbn. symmetry. apply app_nil_r.
    + destruct (IH _ _ _ H) as (n & Hn & Hmore & Hlast & ->).
      exists (S n). split; [|split; [|split]].
      * lia.
      * intros [|i] Hi.
        -- rewrite Z.add_0_r. split; [exact Hs|]. rewrite Hb. discriminate.
        -- replace (page + Z.of_nat (S i)) with (page + 1 + Z.of_nat i)
             by lia.
           apply Hmore. lia.
      * replace (page + Z.of_nat (S n)) with (page + 1 + Z.of_nat n) by lia.
        exact Hlast.
      * rewrite run_step, Hb, app_assoc. reflexivity.
  - injection H as <-. exists O. rewrite Z.add_0_r.
    split; [lia|]. split; [intros i Hi; lia|].
    split; [left; exact Hs|].
    cbn. symmetry. apply app_nil_r.
Qed.

(** Against an endpoint whose every page from [page] on continues, the
    loop uses up any fuel. *)
Lemma pages_runs_on (fuel : nat) :
  forall (page : Z) (items : list A),
    (forall p, page <= p -> Paging.more get p) ->
    Paging.pages get fuel page items = None.
Proof.
  induction fuel as [|fuel IH]; intros page items Hmore; [reflexivity|].
  cbn [Paging.pages].
  destruct (Hmore page ltac:(lia)) as [Hs Hj].
  rewrite Hs. cbn [Z.eqb Pos.eqb negb].
  destruct (Paging.json (get page)) as [|x batch]; [contradiction|].
  apply IH. intros p Hp. apply Hmore. lia.
Qed.

End PagingFacts.

(** X1. When the first [n] pages of a listing answer 200 with a
    non-empty batch and page [n + 1] answers another status or an empty
    batch, [get_repos], [get_branches] and [get_tags] return, after
    [n + 1] requests, the [n] batches concatenated in page order. *)
Theorem paging_collects :
  forall (s : Paging.session) (owner repo : string) (n fuel : nat),
    (n < fuel)%nat ->
    ((forall i, (i < n)%nat ->
         Paging.more (Paging.user_repos s) (1 + Z.of_nat i)) ->
     Paging.last_page (Paging.user_repos s) (1 + Z.of_nat n) ->
     Paging.get_repos s fuel
     = Some (Paging.batches (Paging.user_repos s) n))
    /\ ((forall i, (i < n)%nat ->
            Paging.more (Paging.repo_branches s owner repo)
              (1 + Z.of_nat i)) ->
        Paging.last_page (Paging.repo_branches s owner repo)
          (1 + Z.of_nat n) ->
        Paging.get_branches s owner repo fuel
        = Some (Paging.batches (Paging.repo_branches s owner repo) n))
    /\ ((forall i, (i < n)%nat ->
            Paging.more (Paging.repo_tags s owner repo)
              (1 + Z.of_nat i)) ->
        Paging.last_page (Paging.repo_tags s owner repo)
          (1 + Z.of_nat n) ->
        Paging.get_tags s owner repo fuel
        = Some (Paging.batches (Paging.repo_tags s owner repo) n)).
Proof.
  intros s owner repo n fuel Hfuel.
  repeat split; intros Hmore Hlast;
    unfold Paging.get_repos, Paging.get_branches, Paging.get_tags,
      Paging.batches;
    rewrite (pages_collects _ n fuel 1 [] Hmore Hlast Hfuel);
    reflexivity.
Qed.

Lemma paging_collects_witness :
  Paging.get_repos DemoApp.session 5 = Some DemoApp.repos
  /\ Paging.get_branches DemoApp.session "octo" "demo" 5
     = Some [Demo.branch "main"; Demo.branch "feature-a";
             Demo.branch "merged"].
Proof.
  destruct (paging_collects DemoApp.session "octo" "demo" 2 5
              ltac:(lia)) as (Hr & Hb & _).
  split.
  - rewrite Hr; [reflexivity| |right; reflexivity].
    intros [|[|i]] Hi; [split; [reflexivity|discriminate]..|lia].
  - rewrite Hb; [reflexivity| |left; discriminate].
    intros [|[|i]] Hi; [split; [reflexivity|discriminate]..|lia].
Defined.

(** X2. Whatever [get_repos], [get_branches] or [get_tags] returns is
    the concatenation of the batches of pages [1 .. n], all of which
    answered 200 with a non-empty batch, where page [n + 1] is the first
    to answer another status or an empty batch: a failed page ends the
    listing like an empty one, keeping what was collected, and nothing
    of that page or of a later one is returned. *)
Theorem paging_returned :
  forall (s : Paging.session) (owner repo : string) (fuel : nat),
    (forall out,
        Paging.get_repos s fuel = Some out ->
        exists n,
          (forall i, (i < n)%nat ->
             Paging.more (Paging.user_repos s) (1 + Z.of_nat i))
          /\ Paging.last_page (Paging.user_repos s) (1 + Z.of_nat n)
          /\ out = Paging.batches (Paging.user_repos s) n)
    /\ (forall out,
          Paging.get_branches s owner repo fuel = Some out ->
          exists n,
            (forall i, (i < n)%nat ->
               Paging.more (Paging.repo_branches s owner repo)
                 (1 + Z.of_nat i))
            /\ Paging.last_page (Paging.repo_branches s owner repo)
                 (1 + Z.of_nat n)
            /\ out = Paging.batches (Paging.repo_branches s owner repo) n)
    /\ (forall out,
          Paging.get_tags s owner repo fuel = Some out ->
          exists n,
            (forall i, (i < n)%nat ->
               Paging.more (Paging.repo_tags s owner repo)
                 (1 + Z.of_nat i))
            /\ Paging.last_page (Paging.repo_tags s owner repo)
                 (1 + Z.of_nat n)
            /\ out = Paging.batches (Paging.repo_tags s owner repo) n).
Proof.
  intros s owner repo fuel.
  repeat split; intros out H;
    apply pages_returned in H;
    destruct H as (n & _ & Hmore & Hlast & ->);
    exists n; (split; [exact Hmore|split; [exact Hlast|reflexivity]]).
Qed.

Lemma paging_returned_witness :
  exists n,
    Paging.last_page (Paging.repo_branches DemoApp.session "octo" "demo")
      (1 + Z.of_nat n)
    /\ [Demo.branch "main"; Demo.branch "feature-a"; Demo.branch "merged"]
       = Paging.batches (Paging.repo_branches DemoApp.session "octo" "demo")
           n.
Proof.
  destruct (proj1 (proj2 (paging_returned DemoApp.session "octo" "demo" 5))
              [Demo.branch "main"; Demo.branch "feature-a";
               Demo.branch "merged"] ltac:(reflexivity))
    as (n & _ & Hlast & Hout).
  exists n. split; assumption.
Defined.

(** X3. Against an endpoint that answers every page with status 200 and
    a non-empty batch, the listing loop never returns: no number of
    requests is enough. *)
Theorem paging_never_returns :
  forall (s : Paging.session) (owner repo : string),
    ((forall p, 1 <= p -> Paging.more (Paging.user_repos s) p) ->
     forall fuel, Paging.get_repos s fuel = None)
    /\ ((forall p, 1 <= p ->
           Paging.more (Paging.repo_branches s owner repo) p) ->
        forall fuel, Paging.get_branches s owner repo fuel = None)
    /\ ((forall p, 1 <= p -> Paging.more (Paging.repo_tags s owner repo) p) ->
        forall fuel, Paging.get_tags s owner repo fuel = None).
Proof.
  intros s owner repo.
  repeat split; intros Hmore fuel; apply pages_runs_on; exact Hmore.
Qed.

Lemma paging_never_returns_witness :
  Paging.get_tags DemoApp.session "octo" "demo" 1000 = None.
Proof.
  apply (proj2 (proj2 (paging_never_returns DemoApp.session "octo" "demo"))).
  intros p _. split; [reflexivity|discriminate].
Defined.

(* ================================================================= *)
(** ** The descending sort *)

Section SortReverseFacts.

Context {A : Type}.
Variable key : A -> Z.

Lemma sort_reverse_permutation (l : list A) :
  Permutation l (Lst.sort_reverse key l).
Proof.
  unfold Lst.sort_reverse.
  etransitivity; [apply Permutation_rev|].
  etransitivity; [apply sort_permutation|].
  apply Permutation_rev.
Qed.

(** Items of equal key keep their order. *)
Lemma sort_reverse_with_key (k : Z) (l : list A) :
  with_key key k (Lst.sort_reverse key l) = with_key key k l.
Proof.
  unfold Lst.sort_reverse, with_key.
  rewrite filter_rev.
  change (filter (fun a => key a =? k) (sort key (rev l)))
    with (with_key key k (sort key (rev l))).
  rewrite sort_with_key. unfold with_key.
  rewrite filter_rev. apply rev_involutive.
Qed.

Lemma descending_snoc (l : list A) (x : A) :
  Lst.descending key l ->
  Forall (fun y => key x <= key y) l ->
  Lst.descending key (l ++ [x]).
Proof.
  unfold Lst.descending. induction l as [|y l IH]; intros Hs Hall.
  - cbn. constructor; constructor.
  - inversion Hs as [|? ? Hs' Hhd]; subst.
    inversion Hall as [|? ? Hy Hall']; subst.
    cbn. constructor; [apply IH; assumption|].
    destruct l as [|z l]; cbn.
    + constructor. exact Hy.
    + constructor. inversion Hhd; subst. assumption.
Qed.

Lemma ascending_rev (l : list A) :
  ascending key l -> Lst.descending key (rev l).
Proof.
  induction l as [|x l IH]; intros Hs.
  - constructor.
  - cbn [rev]. apply descending_snoc.
    + apply IH. inversion Hs; assumption.
    + apply Forall_rev. apply ascending_head_least. exact Hs.
Qed.

Lemma sort_reverse_descending (l : list A) :
  Lst.descending key (Lst.sort_reverse key l).
Proof.
  unfold Lst.sort_reverse. apply ascending_rev, sort_ascending.
Qed.

End SortReverseFacts.

(* ================================================================= *)
(** ** The scan of all repositories *)

Section AppFacts.

Variable parse : string -> option Datetime.datetime.
Variable clocks : nat -> nat -> Z.
Variable client : GitHubClient.t.
Variable exn_str : exn -> string.

Local Abbreviation one := (App.scan_one parse clocks client exn_str).
Local Abbreviation loop := (App.scan_repos parse clocks client exn_str).

(** A returned scan carries the identity of the repository scanned. *)
Lemma scan_repo_identity (clock : nat -> Z) (repo : repo_entry)
  (res : RepoScan.t) :
  scan_repo parse clock client repo = inr res ->
  RepoScan.name res = repo_name repo
  /\ RepoScan.full_name res = repo_full_name repo
  /\ RepoScan.owner res = owner_login repo.
Proof.
  unfold scan_repo.
  destruct (collect parse clock client repo) as [e|bd]; [discriminate|].
  cbn [bind].
  destruct (GitHubClient.check_claude_md client (owner_login repo)
              (repo_name repo)) as [e|flag]; [discriminate|].
  cbn [bind ret]. intros H. injection H as <-. repeat split.
Qed.

(** An entry names the repository it was built for. *)
Lemma scan_one_identity (i : nat) (repo : repo_entry) :
  App.ScanEntry.name (one i repo) = repo_name repo
  /\ App.ScanEntry.full_name (one i repo) = repo_full_name repo.
Proof.
  unfold App.scan_one.
  destruct (scan_repo parse (clocks i) client repo) as [e|d] eqn:H.
  - split; reflexivity.
  - destruct (scan_repo_identity _ _ _ H) as (Hn & Hf & _).
    split; assumption.
Qed.

(** In every entry [branch_count] is the length of [branches]. *)
Lemma scan_one_count (i : nat) (repo : repo_entry) :
  App.ScanEntry.branch_count (one i repo)
  = Z.of_nat (List.length (App.ScanEntry.branches (one i repo))).
Proof.
  unfold App.scan_one.
  destruct (scan_repo parse (clocks i) client repo) as [e|d] eqn:H.
  - reflexivity.
  - destruct (scan_repo_returned _ _ _ _ _ H) as (bd & _ & Hb & Hc & _).
    cbn. rewrite Hb, Hc. reflexivity.
Qed.

(** The loop appends, in listing order, one entry per repository that
    is not excluded. *)
Lemma scan_repos_appends (excluded : list string)
  (repos : list repo_entry) :
  forall (i : nat) (acc : list App.ScanEntry.t),
  exists added,
    loop excluded repos i acc = (acc ++ added)%list
    /\ Forall2 (fun repo e => exists j, e = one j repo)
         (filter (fun r => negb (App.is_excluded excluded r)) repos)
         added.
Proof.
  induction repos as [|repo rest IH]; intros i acc.
  - exists []. split; [symmetry; apply app_nil_r|constructor].
  - cbn [App.scan_repos filter].
    destruct (App.is_excluded excluded repo); cbn [negb].
    + apply IH.
    + destruct (IH (S i) (acc ++ [one i repo])%list)
        as (added & Heq & HF).
      exists (one i repo :: added). split.
      * rewrite Heq, <- app_assoc. reflexivity.
      * constructor; [exists i; reflexivity|exact HF].
Qed.

(** [results] before the sort. *)
Lemma scan_results_unsorted (excluded : list string)
  (repos : list repo_entry) :
  Forall2 (fun repo e => exists j, e = one j repo)
    (filter (fun r => negb (App.is_excluded excluded r)) repos)
    (loop excluded repos O []).
Proof.
  destruct (scan_repos_appends excluded repos O []) as (added & -> & HF).
  exact HF.
Qed.

End AppFacts.

(** The sum of the lengths of lists is the length of their
    concatenation. *)
Lemma sum_lengths {A B : Type} (count : A -> Z) (items : A -> list B)
  (l : list A) :
  Forall (fun a => count a = Z.of_nat (List.length (items a))) l ->
  Lst.sum (map count l)
  = Z.of_nat (List.length (List.concat (map items l))).
Proof.
  unfold Lst.sum. intros H.
  assert (G : forall z,
             fold_left Z.add (map count l) z
             = z + Z.of_nat (List.length (List.concat (map items l)))).
  { induction H as [|a l Ha _ IH]; intros z; cbn.
    - lia.
    - rewrite IH, Ha, length_app. lia. }
  rewrite G. lia.
Qed.

(** X4. The scan of all repositories yields one entry for every listed
    repository that is not excluded by its name or its full name,
    whether the scan of that repository returned or raised: the full
    names of the entries are those of the listed, non-excluded
    repositories, and [total_repos] counts them. *)
Theorem scan_isolates_failures :
  forall (parse : string -> option Datetime.datetime)
         (clocks : nat -> nat -> Z) (client : GitHubClient.t)
         (exn_str : exn -> string) (excluded : option (list string))
         (repos : list repo_entry),
    let kept :=
      filter (fun r => negb (App.is_excluded (get excluded []) r)) repos in
    let res := App.scan parse clocks client exn_str excluded repos in
    Permutation (map repo_full_name kept)
      (map App.ScanEntry.full_name (App.ScanResults.repos res))
    /\ App.ScanResults.total_repos res = Z.of_nat (List.length kept).
Proof.
  intros parse clocks client exn_str excluded repos kept res.
  pose proof (scan_results_unsorted parse clocks client exn_str
                (get excluded []) repos) as HF.
  fold kept in HF.
  assert (Hn : map App.ScanEntry.full_name
                 (App.scan_repos parse clocks client exn_str
                    (get excluded []) repos O [])
               = map repo_full_name kept).
  { apply Forall2_map_eq. apply Forall2_impl with (2 := HF).
    intros repo e [j ->]. apply scan_one_identity. }
  unfold res, App.scan. cbn. split.
  - rewrite <- Hn. apply Permutation_map, sort_reverse_permutation.
  - f_equal.
    rewrite <- (Permutation_length (sort_reverse_permutation _ _)).
    symmetry. exact (Forall2_length HF).
Qed.

(** X5. Every entry of the result was built for a listed repository.
    If the scan of that repository raised, the entry carries the text of
    the exception in [error], no branches, a [branch_count] of 0, no
    [updated_at] and a false [has_claude_md]; otherwise it is the
    dictionary the scan returned, without [error]. *)
Theorem scan_entry_shapes :
  forall (parse : string -> option Datetime.datetime)
         (clocks : nat -> nat -> Z) (client : GitHubClient.t)
         (exn_str : exn -> string) (excluded : option (list string))
         (repos : list repo_entry),
    Forall
      (fun e =>
         exists i repo,
           In repo repos
           /\ ((exists d,
                   scan_repo parse (clocks i) client repo = inr d
                   /\ e = App.of_repo_data d
                   /\ App.ScanEntry.error e = None)
               \/ (exists ex,
                     scan_repo parse (clocks i) client repo = inl ex
                     /\ App.ScanEntry.error e = Some (exn_str ex)
                     /\ App.ScanEntry.branches e = []
                     /\ App.ScanEntry.branch_count e = 0
                     /\ App.ScanEntry.updated_at e = None
                     /\ App.ScanEntry.has_claude_md e = false
                     /\ App.ScanEntry.full_name e = repo_full_name repo)))
      (App.ScanResults.repos
         (App.scan parse clocks client exn_str excluded repos)).
Proof.
  intros parse clocks client exn_str excluded repos.
  unfold App.scan. cbn.
  apply Permutation_Forall with (1 := sort_reverse_permutation _ _).
  apply Forall_impl
    with (2 := Forall2_partner _ _ _
                 (scan_results_unsorted parse clocks client exn_str
                    (get excluded []) repos)).
  intros e (repo & Hin & j & ->).
  apply filter_In in Hin. destruct Hin as [Hin _].
  exists j, repo. split; [exact Hin|].
  unfold App.scan_one.
  destruct (scan_repo parse (clocks j) client repo) as [ex|d].
  - right. exists ex. repeat split.
  - left. exists d. repeat split.
Qed.

(** X6. The entries descend by [branch_count], and entries with the same
    count stand in the order of the repository listing. *)
Theorem scan_sorted_by_branch_count :
  forall (parse : string -> option Datetime.datetime)
         (clocks : nat -> nat -> Z) (client : GitHubClient.t)
         (exn_str : exn -> string) (excluded : option (list string))
         (repos : list repo_entry),
    let res := App.scan parse clocks client exn_str excluded repos in
    Lst.descending App.ScanEntry.branch_count (App.ScanResults.repos res)
    /\ exists unsorted,
         map App.ScanEntry.full_name unsorted
         = map repo_full_name
             (filter (fun r => negb (App.is_excluded (get excluded []) r))
                repos)
         /\ forall k,
              with_key App.ScanEntry.branch_count k
                (App.ScanResults.repos res)
              = with_key App.ScanEntry.branch_count k unsorted.
Proof.
  intros parse clocks client exn_str excluded repos res.
  unfold res, App.scan. cbn. split; [apply sort_reverse_descending|].
  exists (App.scan_repos parse clocks client exn_str (get excluded [])
            repos O []).
  split.
  - apply Forall2_map_eq.
    apply Forall2_impl
      with (2 := scan_results_unsorted parse clocks client exn_str
                   (get excluded []) repos).
    intros repo e [j ->]. apply scan_one_identity.
  - intros k. apply sort_reverse_with_key.
Qed.

(** X7. [total_repos] is the number of entries and [total_branches] is
    the number of branch records held by all entries together. *)
Theorem scan_totals :
  forall (parse : string -> option Datetime.datetime)
         (clocks : nat -> nat -> Z) (client : GitHubClient.t)
         (exn_str : exn -> string) (excluded : option (list string))
         (repos : list repo_entry),
    let res := App.scan parse clocks client exn_str excluded repos in
    App.ScanResults.total_repos res
    = Z.of_nat (List.length (App.ScanResults.repos res))
    /\ App.ScanResults.total_branches res
       = Z.of_nat
           (List.length
              (List.concat
                 (map App.ScanEntry.branches (App.ScanResults.repos res)))).
Proof.
  intros parse clocks client exn_str excluded repos res.
  unfold res, App.scan. cbn. split; [reflexivity|].
  apply sum_lengths.
  apply Permutation_Forall with (1 := sort_reverse_permutation _ _).
  apply Forall_impl
    with (2 := Forall2_partner _ _ _
                 (scan_results_unsorted parse clocks client exn_str
                    (get excluded []) repos)).
  intros e (repo & _ & j & ->). apply scan_one_count.
Qed.

(** X8. No entry of the result bears a name or a full name that is in
    the exclusion list. *)
Theorem scan_excludes :
  forall (parse : string -> option Datetime.datetime)
         (clocks : nat -> nat -> Z) (client : GitHubClient.t)
         (exn_str : exn -> string) (excluded : option (list string))
         (repos : list repo_entry),
    Forall
      (fun e =>
         contains (get excluded []) (App.ScanEntry.name e) = false
         /\ contains (get excluded []) (App.ScanEntry.full_name e) = false)
      (App.ScanResults.repos
         (App.scan parse clocks client exn_str excluded repos)).
Proof.
  intros parse clocks client exn_str excluded repos.
  unfold App.scan. cbn.
  apply Permutation_Forall with (1 := sort_reverse_permutation _ _).
  apply Forall_impl
    with (2 := Forall2_partner _ _ _
                 (scan_results_unsorted parse clocks client exn_str
                    (get excluded []) repos)).
  intros e (repo & Hin & j & ->).
  apply filter_In in Hin. destruct Hin as [_ Hex].
  apply negb_true_iff in Hex. unfold App.is_excluded in Hex.
  apply orb_false_iff in Hex. destruct Hex as [Hf Hn].
  destruct (scan_one_identity parse clocks client exn_str j repo)
    as [-> ->].
  split; assumption.
Qed.

(* ================================================================= *)
(** ** More on the classifier *)

(** X9. The label is [ACTIVE PR] exactly when the branch has an open
    pull request, and [SAFE TO DELETE] exactly when it has none and is
    not ahead of the default branch; neither depends on the date, on
    [behind_by] or on the clock. *)
Theorem classify_branch_pr_and_merged :
  forall (parse : string -> option Datetime.datetime) (t : Z)
         (c : comparison) (d : option string) (p : bool),
    (GitHubClient.classify_branch parse t c d p = inr "ACTIVE PR"
     <-> p = true)
    /\ (GitHubClient.classify_branch parse t c d p = inr "SAFE TO DELETE"
        <-> p = false /\ get (ahead_by c) 0 = 0).
Proof.
  intros parse t c d p. rewrite classify_branch_rules.
  destruct p.
  - split; split; try reflexivity; try discriminate.
    intros [H _]. discriminate.
  - destruct (Z.eqb_spec (get (ahead_by c) 0) 0) as [E|N].
    + split; split; try discriminate; auto.
    + destruct (_ && _); [|destruct (_ && _)];
        (split; split; [discriminate|discriminate|discriminate|]);
        intros [_ E]; contradiction.
Qed.

(** X10. The label is [STALE] exactly when there is no open pull
    request, [ahead_by] is positive, and the date is a non-empty text
    that parses, after its Z is rewritten, to a value with a UTC offset
    lying at least 31 whole days before the clock reading. *)
Theorem classify_branch_stale_iff :
  forall (parse : string -> option Datetime.datetime) (t : Z)
         (c : comparison) (d : option string) (p : bool),
    GitHubClient.classify_branch parse t c d p = inr "STALE"
    <-> p = false
        /\ 0 < get (ahead_by c) 0
        /\ exists s dt off,
             d = Some s
             /\ truthy_str s = true
             /\ parse (replace_Z s) = Some dt
             /\ Datetime.utcoffset dt = Some off
             /\ 31 * Datetime.us_per_day <= t - (Datetime.wall dt - off).
Proof.
  intros parse t c d p. rewrite classify_branch_rules. split.
  - destruct p; [discriminate|].
    destruct (Z.eqb_spec (get (ahead_by c) 0) 0) as [E|N]; [discriminate|].
    destruct (GitHubClient.stale parse t d) eqn:Hs; cbn [andb].
    + destruct (Z.gtb_spec (get (ahead_by c) 0) 0) as [Hpos|Hneg].
      * intros _. split; [reflexivity|]. split; [lia|].
        destruct d as [s|]; [|discriminate].
        apply stale_iff in Hs. destruct Hs as (Ht & dt & off & H).
        exists s, dt, off. tauto.
      * destruct (_ && _); discriminate.
    + destruct (_ && _); discriminate.
  - intros (-> & Hpos & s & dt & off & -> & Ht & Hp & Ho & Hage).
    destruct (Z.eqb_spec (get (ahead_by c) 0) 0) as [E|N]; [lia|].
    assert (Hs : GitHubClient.stale parse t (Some s) = true).
    { apply stale_iff. split; [exact Ht|]. exists dt, off. tauto. }
    rewrite Hs. apply Z.gtb_lt in Hpos. rewrite Hpos. reflexivity.
Qed.

Lemma classify_branch_stale_iff_witness :
  Demo.classify Demo.feb13 (Demo.cmp 1 0)
    (Some "2026-01-13T00:00:00Z") false
  = inr "STALE".
Proof.
  apply (proj2 (classify_branch_stale_iff Datetime.fromisoformat
                  Demo.feb13 (Demo.cmp 1 0)
                  (Some "2026-01-13T00:00:00Z") false)).
  split; [reflexivity|]. split; [reflexivity|].
  eexists _, _, _. split; [reflexivity|]. split; [reflexivity|].
  split; [vm_compute; reflexivity|]. split; [reflexivity|].
  vm_compute. discriminate.
Defined.

(** X11. Without an open pull request, with [ahead_by] positive and
    [behind_by] zero, a branch whose date is absent or on which the
    staleness rule does not fire is [AHEAD ONLY]; so is, whatever its
    date, a branch whose [ahead_by] is negative. *)
Theorem classify_branch_ahead_only :
  forall (parse : string -> option Datetime.datetime) (t : Z)
         (c : comparison) (d : option string),
    (0 < get (ahead_by c) 0 ->
     get (behind_by c) 0 <= 0 ->
     GitHubClient.stale parse t d = false ->
     GitHubClient.classify_branch parse t c d false = inr "AHEAD ONLY")
    /\ (get (ahead_by c) 0 < 0 ->
        GitHubClient.classify_branch parse t c d false = inr "AHEAD ONLY").
Proof.
  intros parse t c d. rewrite classify_branch_rules. split.
  - intros Ha Hb Hs. rewrite Hs. cbn [andb].
    destruct (Z.eqb_spec (get (ahead_by c) 0) 0); [lia|].
    destruct (Z.gtb_spec (get (behind_by c) 0) 0); [lia|].
    rewrite andb_false_r. reflexivity.
  - intros Ha.
    destruct (Z.eqb_spec (get (ahead_by c) 0) 0); [lia|].
    destruct (Z.gtb_spec (get (ahead_by c) 0) 0); [lia|].
    rewrite andb_false_r. reflexivity.
Qed.

Lemma classify_branch_ahead_only_witness :
  Demo.classify Demo.feb13 (Demo.cmp 3 0)
    (Some "2026-02-12T00:00:00Z") false
  = inr "AHEAD ONLY".
Proof.
  apply (proj1 (classify_branch_ahead_only Datetime.fromisoformat
                  Demo.feb13 (Demo.cmp 3 0)
                  (Some "2026-02-12T00:00:00Z"))).
  - reflexivity.
  - discriminate.
  - vm_compute. reflexivity.
Defined.

Lemma replace_Z_app (a b : string) :
  replace_Z (a ++ b) = replace_Z a ++ replace_Z b.
Proof.
  induction a as [|c a IH]; [reflexivity|].
  cbn [append replace_Z]. rewrite IH.
  destruct (Ascii.eqb c "Z"); reflexivity.
Qed.

(** X12. A date written with a final Z and the same date written with
    a final +00:00 are classified alike, whatever precedes the suffix
    and whatever the parser makes of the text. *)
Theorem classify_branch_zulu :
  forall (parse : string -> option Datetime.datetime) (t : Z)
         (c : comparison) (s : string) (p : bool),
    GitHubClient.classify_branch parse t c (Some (s ++ "Z")) p
    = GitHubClient.classify_branch parse t c (Some (s ++ "+00:00")) p.
Proof.
  intros parse t c s p. rewrite !classify_branch_rules.
  assert (Hs : GitHubClient.stale parse t (Some (s ++ "Z"))
               = GitHubClient.stale parse t (Some (s ++ "+00:00"))).
  { unfold GitHubClient.stale. rewrite !replace_Z_app.
    replace (truthy_str (s ++ "Z")) with (truthy_str (s ++ "+00:00"))
      by (destruct s; reflexivity).
    reflexivity. }
  rewrite Hs. reflexivity.
Qed.

(* ================================================================= *)
(** ** More on the scan of one repository *)

Section LoopFacts2.

Variable parse : string -> option Datetime.datetime.
Variable clock : nat -> Z.
Variable client : GitHubClient.t.
Variables owner name default_branch : string.
Variable pr_branches : list string.

Local Abbreviation body :=
  (scan_branch parse clock client owner name default_branch pr_branches).
Local Abbreviation loop :=
  (scan_branches parse clock client owner name default_branch pr_branches).
Local Abbreviation compare :=
  (GitHubClient.compare_branches client owner name default_branch).

(** The comparison has commits and the last of them has no
    committer. *)
Local Abbreviation unreadable cmp :=
  (exists c0 cs,
      commits cmp = Some (c0 :: cs)
      /\ committer (commit (last_item c0 cs)) = None).




(** The fields of an appended record that are copied from the branch
    and from its comparison. *)
Lemma scan_branch_fields (i : nat) (b : branch_entry)
  (r : BranchRecord.t) :
  body i b = inr (Some r) ->
  exists cmp,
    compare (branch_name b) = inr (Some cmp)
    /\ BranchRecord.has_pr r = contains pr_branches (branch_name b)
    /\ BranchRecord.ahead_by r = get (ahead_by cmp) 0
    /\ BranchRecord.behind_by r = get (behind_by cmp) 0
    /\ BranchRecord.commit_sha r = branch_commit_sha b
    /\ BranchRecord.files_changed r = files_changed_of cmp
    /\ BranchRecord.commit_messages r = commit_messages_of cmp
    /\ GitHubClient.classify_branch parse (clock i) cmp
         (BranchRecord.last_commit_date r) (BranchRecord.has_pr r)
       = inr (BranchRecord.classification r).
Proof.
  unfold scan_branch.
  destruct (String.eqb (branch_name b) default_branch); [discriminate|].
  destruct (compare (branch_name b)) as [e|[cmp|]]; try discriminate.
  cbn [bind]. intros H. exists cmp. split; [reflexivity|].
  destruct (last_commit_of cmp) as [e|[d a]]; [discriminate|].
  cbn [bind] in H.
  destruct (GitHubClient.classify_branch parse (clock i) cmp d
              (contains pr_branches (branch_name b))) as [e|label] eqn:Hc;
    [discriminate|].
  cbn [bind ret] in H. injection H as <-. cbn.
  repeat split. exact Hc.
Qed.

End LoopFacts2.



(** What a returned label can be, and when it is [ACTIVE PR]. *)
Lemma classify_branch_label (parse : string -> option Datetime.datetime)
  (t : Z) (c : comparison) (d : option string) (p : bool)
  (label : string) :
  GitHubClient.classify_branch parse t c d p = inr label ->
  In label labels /\ (label = "ACTIVE PR" <-> p = true).
Proof.
  rewrite classify_branch_rules. intros H. injection H as <-.
  destruct p; [cbn; tauto|].
  destruct (_ =? 0); [cbn; split; [tauto|split; discriminate]|].
  destruct (_ && _); [cbn; split; [tauto|split; discriminate]|].
  destruct (_ && _); cbn; (split; [tauto|split; discriminate]).
Qed.

(** X14. In a returned scan every record has one of the five labels, so
    its sort key lies between 0 and 4; a record is labelled [ACTIVE PR]
    exactly when its [has_pr] is true, which is exactly when its name is
    the head ref of a listed pull request. *)
Theorem scan_repo_labels :
  forall (parse : string -> option Datetime.datetime) (clock : nat -> Z)
         (client : GitHubClient.t) (repo : repo_entry) (res : RepoScan.t),
    scan_repo parse clock client repo = inr res ->
    exists pulls,
      GitHubClient.get_pulls client (owner_login repo) (repo_name repo)
      = inr pulls
      /\ Forall
           (fun r =>
              In (BranchRecord.classification r) labels
              /\ 0 <= sort_key r <= 4
              /\ (BranchRecord.classification r = "ACTIVE PR"
                  <-> BranchRecord.has_pr r = true)
              /\ BranchRecord.has_pr r
                 = contains (map head_ref pulls) (BranchRecord.name r))
           (RepoScan.branches res).
Proof.
  intros parse clock client repo res H.
  destruct (scan_repo_returned _ _ _ _ _ H) as (bd & Hc & Hb & _ & _).
  rewrite Hb.
  destruct (collect_records _ _ _ _ _ Hc) as (listing & pulls & _ & Hp & HF).
  exists pulls. split; [exact Hp|].
  apply Permutation_Forall with (1 := sort_permutation sort_key bd).
  apply Forall_impl with (2 := Forall2_partner _ _ _ HF).
  intros r (b & _ & j & Hj).
  pose proof (scan_branch_appended _ _ _ _ _ _ _ _ _ _ Hj)
    as (_ & _ & _ & Hname & _).
  apply scan_branch_fields in Hj.
  destruct Hj as (cmp & _ & Hpr & _ & _ & _ & _ & _ & Hcl).
  destruct (classify_branch_label _ _ _ _ _ _ Hcl) as [Hlab Hiff].
  split; [exact Hlab|]. split; [|split].
  - unfold sort_key. cbn in Hlab.
    destruct Hlab as [<-|[<-|[<-|[<-|[<-|[]]]]]]; cbn; lia.
  - exact Hiff.
  - rewrite Hpr, Hname. reflexivity.
Qed.

Lemma classify_branch_pr_and_merged_witness :
  Demo.classify Demo.feb13 (Demo.cmp 0 7) (Some "not a date") false
  = inr "SAFE TO DELETE".
Proof.
  apply (proj2 (proj2 (classify_branch_pr_and_merged Datetime.fromisoformat
                         Demo.feb13 (Demo.cmp 0 7) (Some "not a date")
                         false))).
  split; reflexivity.
Defined.

Lemma scan_repo_labels_witness :
  exists res,
    Demo.scan Demo.client7 = inr res
    /\ Forall (fun r => 0 <= sort_key r <= 4) (RepoScan.branches res)
    /\ map BranchRecord.has_pr (RepoScan.branches res)
       = [false; false; false; false; false; true].
Proof.
  eexists. split; [vm_compute; reflexivity|].
  split; [|vm_compute; reflexivity].
  match goal with
  | |- Forall _ (RepoScan.branches ?r) =>
      destruct (scan_repo_labels Datetime.fromisoformat Demo.clock
                  Demo.client7 Demo.repo r ltac:(vm_compute; reflexivity))
        as (pulls & _ & Hall)
  end.
  apply Forall_impl with (2 := Hall).
  intros r (_ & Hk & _). exact Hk.
Defined.

(** X15. Every record of a returned scan stems from a listed branch
    whose comparison was fetched: its counts are those of the comparison
    (0 for a missing one), its [commit_sha] is the tip of the branch,
    its [last_commit_date] is the committer date of the last commit of
    the comparison ([None] without commits), and its label is what the
    classifier returns on that comparison, that date and the record's
    PR flag at the clock reading of some iteration. *)
Theorem scan_repo_record_fields :
  forall (parse : string -> option Datetime.datetime) (clock : nat -> Z)
         (client : GitHubClient.t) (repo : repo_entry) (res : RepoScan.t),
    scan_repo parse clock client repo = inr res ->
    exists listing,
      GitHubClient.get_branches client (owner_login repo) (repo_name repo)
      = inr listing
      /\ Forall
           (fun r =>
              exists b cmp i,
                In b listing
                /\ BranchRecord.name r = branch_name b
                /\ GitHubClient.compare_branches client (owner_login repo)
                     (repo_name repo)
                     (get (repo_default_branch repo) "main")
                     (branch_name b) = inr (Some cmp)
                /\ BranchRecord.ahead_by r = get (ahead_by cmp) 0
                /\ BranchRecord.behind_by r = get (behind_by cmp) 0
                /\ BranchRecord.commit_sha r = branch_commit_sha b
                /\ BranchRecord.last_commit_date r
                   = match commits cmp with
                     | Some (c0 :: cs) =>
                         option_map actor_date
                           (committer (commit (last_item c0 cs)))
                     | _ => None
                     end
                /\ GitHubClient.classify_branch parse (clock i) cmp
                     (BranchRecord.last_commit_date r)
                     (BranchRecord.has_pr r)
                   = inr (BranchRecord.classification r))
           (RepoScan.branches res).
Proof.
  intros parse clock client repo res H.
  destruct (scan_repo_returned _ _ _ _ _ H) as (bd & Hc & Hb & _ & _).
  rewrite Hb.
  destruct (collect_records _ _ _ _ _ Hc) as (listing & pulls & Hl & _ & HF).
  exists listing. split; [exact Hl|].
  apply Permutation_Forall with (1 := sort_permutation sort_key bd).
  apply Forall_impl with (2 := Forall2_partner _ _ _ HF).
  intros r (b & Hin & j & Hj).
  apply filter_In in Hin. destruct Hin as [Hin _].
  pose proof (scan_branch_appended _ _ _ _ _ _ _ _ _ _ Hj)
    as (_ & cmp & Hcmp & Hname & Hlast & _).
  apply scan_branch_fields in Hj.
  destruct Hj as (cmp' & Hcmp' & _ & Ha & Hbh & Hsha & _ & _ & Hcl).
  rewrite Hcmp in Hcmp'. injection Hcmp' as <-.
  exists b, cmp, j.
  repeat split; try assumption.
  unfold last_commit_of in Hlast.
  destruct (commits cmp) as [[|c0 cs]|].
  - injection Hlast as <- _. reflexivity.
  - destruct (committer (commit (last_item c0 cs))); [|discriminate].
    cbn in Hlast. injection Hlast as <- _. reflexivity.
  - injection Hlast as <- _. reflexivity.
Qed.

Lemma scan_repo_record_fields_witness :
  exists res,
    Demo.scan Demo.client3 = inr res
    /\ map (fun r => (BranchRecord.commit_sha r,
                      BranchRecord.last_commit_date r))
         (RepoScan.branches res)
       = [("feature-a-tip", Some "2026-02-12T09:30:00Z");
          ("merged-tip", None)]
    /\ Forall
         (fun r =>
            exists b,
              BranchRecord.name r = branch_name b
              /\ BranchRecord.commit_sha r = branch_commit_sha b)
         (RepoScan.branches res).
Proof.
  eexists. split; [vm_compute; reflexivity|].
  split; [vm_compute; reflexivity|].
  match goal with
  | |- Forall _ (RepoScan.branches ?r) =>
      destruct (scan_repo_record_fields Datetime.fromisoformat
                  Demo.clock Demo.client3 Demo.repo r
                  ltac:(vm_compute; reflexivity))
        as (listing & _ & Hall)
  end.
  apply Forall_impl with (2 := Hall).
  intros r (b & cmp & i & _ & Hn & _ & _ & _ & Hs & _).
  exists b. split; assumption.
Defined.

(* ================================================================= *)
(** ** Truncated shas and first lines *)

Lemma prefix_length (n : nat) (s : string) :
  (String.length (prefix n s) <= n)%nat.
Proof.
  revert s. induction n as [|n IH]; intros [|c s]; cbn; try lia.
  specialize (IH s). lia.
Qed.

Lemma prefix_startswith (n : nat) (s : string) :
  Str.startswith (prefix n s) s = true.
Proof.
  revert s.
  induction n as [|n IH]; intros [|c s]; cbn [prefix Str.startswith];
    try reflexivity.
  rewrite Ascii.eqb_refl. apply IH.
Qed.

Lemma prefix_short (n : nat) (s : string) :
  (String.length s <= n)%nat -> prefix n s = s.
Proof.
  revert s. induction n as [|n IH]; intros [|c s]; cbn; intros H;
    try reflexivity; try lia.
  rewrite IH by lia. reflexivity.
Qed.

Lemma first_line_no_line_feed (s : string) :
  Str.has_char "010" (first_line s) = false.
Proof.
  induction s as [|c s IH]; [reflexivity|]. cbn [first_line].
  destruct (Ascii.eqb c "010") eqn:E; cbn [Str.has_char]; [reflexivity|].
  rewrite (Ascii.eqb_sym "010"%char c), E. exact IH.
Qed.

Lemma first_line_startswith (s : string) :
  Str.startswith (first_line s) s = true.
Proof.
  induction s as [|c s IH]; [reflexivity|]. cbn [first_line].
  destruct (Ascii.eqb c "010"); cbn [Str.startswith]; [reflexivity|].
  rewrite Ascii.eqb_refl. exact IH.
Qed.

Lemma first_line_whole (s : string) :
  Str.has_char "010" s = false -> first_line s = s.
Proof.
  induction s as [|c s IH]; [reflexivity|].
  cbn [Str.has_char first_line].
  intros H. apply orb_false_iff in H. destruct H as [Hc Hs].
  rewrite (Ascii.eqb_sym c "010"%char), Hc, (IH Hs). reflexivity.
Qed.

Lemma prefix_length_min (n : nat) (s : string) :
  String.length (prefix n s) = Nat.min n (String.length s).
Proof.
  revert s. induction n as [|n IH]; intros [|c s]; cbn; try reflexivity.
  rewrite IH. reflexivity.
Qed.

(** A text is its first line followed by nothing or by a line feed and
    the rest. *)
Lemma first_line_rest (s : string) :
  exists rest,
    s = first_line s ++ rest
    /\ (rest = "" \/ exists tail, rest = String "010" tail).
Proof.
  induction s as [|c s (rest & Hs & Hrest)].
  - exists "". split; [reflexivity|left; reflexivity].
  - cbn [first_line]. destruct (Ascii.eqb_spec c "010") as [->|N].
    + exists (String "010" s). split; [reflexivity|].
      right. exists s. reflexivity.
    + exists rest. split; [|exact Hrest].
      cbn [append]. rewrite <- Hs. reflexivity.
Qed.

(** X16. The [commit_messages] of a comparison hold one entry per
    commit, in order.  Each entry's sha is the prefix of the commit's
    sha that has 7 characters, or all of them when there are fewer; its
    message is the commit message up to its first line feed: it holds
    no line feed and the commit message is that text followed by
    nothing or by a line feed and more; its date is the committer date,
    or [None] without a committer; its author is the author's name, or
    [Unknown] without an author. *)
Theorem commit_messages_truncated :
  forall (cmp : comparison),
    Forall2
      (fun c m =>
         (String.length (cm_sha m) <= 7)%nat
         /\ Str.startswith (cm_sha m) (sha c) = true
         /\ ((String.length (sha c) <= 7)%nat -> cm_sha m = sha c)
         /\ String.length (cm_sha m)
            = Nat.min 7 (String.length (sha c))
         /\ Str.has_char "010" (cm_message m) = false
         /\ Str.startswith (cm_message m) (message (commit c)) = true
         /\ (Str.has_char "010" (message (commit c)) = false ->
             cm_message m = message (commit c))
         /\ (exists rest,
                message (commit c) = cm_message m ++ rest
                /\ (rest = "" \/ exists tail, rest = String "010" tail))
         /\ cm_date m = option_map actor_date (committer (commit c))
         /\ cm_author m
            = match author (commit c) with
              | Some a => actor_name a
              | None => "Unknown"
              end)
      (get (commits cmp) []) (commit_messages_of cmp).
Proof.
  intros cmp. unfold commit_messages_of.
  induction (get (commits cmp) []) as [|c l IH]; cbn [map]; constructor;
    [|exact IH].
  cbn [cm_sha cm_message cm_date cm_author].
  split; [apply prefix_length|].
  split; [apply prefix_startswith|].
  split; [apply prefix_short|].
  split; [apply prefix_length_min|].
  split; [apply first_line_no_line_feed|].
  split; [apply first_line_startswith|].
  split; [apply first_line_whole|].
  split; [apply first_line_rest|].
  split; [|reflexivity].
  destruct (committer (commit c)); reflexivity.
Qed.

Lemma commit_messages_truncated_witness :
  exists m,
    commit_messages_of
      {| ahead_by := Some 1; behind_by := None;
         commits := Some [Demo.entry "abc" "fix" "ann"
                            "2026-01-01T00:00:00Z"];
         files := None |}
    = [m]
    /\ cm_sha m = "abc".
Proof.
  eexists. split; [reflexivity|].
  pose proof (commit_messages_truncated
                {| ahead_by := Some 1; behind_by := None;
                   commits := Some [Demo.entry "abc" "fix" "ann"
                                      "2026-01-01T00:00:00Z"];
                   files := None |}) as H.
  inversion H as [|c m l l' Hcm Hrest]; subst.
  destruct Hcm as (_ & _ & Hshort & _).
  exact (Hshort ltac:(cbn; lia)).
Defined.

(* ================================================================= *)
(** ** Splitting and joining *)

Section SplitFacts.

Variable sep : ascii.

Lemma split_not_nil (s : string) : Str.split sep s <> [].
Proof.
  destruct s as [|c s]; cbn [Str.split]; [discriminate|].
  destruct (Ascii.eqb c sep); [discriminate|].
  destruct (Str.split sep s); discriminate.
Qed.

(** Splitting a text at a separator splits its two sides. *)
Lemma split_app (a b : string) :
  Str.split sep (a ++ String sep b)
  = (Str.split sep a ++ Str.split sep b)%list.
Proof.
  induction a as [|c a IH].
  - cbn [append Str.split]. rewrite Ascii.eqb_refl. reflexivity.
  - cbn [append Str.split]. rewrite IH.
    destruct (Ascii.eqb c sep); [reflexivity|].
    destruct (Str.split sep a) as [|p ps] eqn:E; [|reflexivity].
    exfalso. exact (split_not_nil a E).
Qed.

(** A text without the separator is its own single piece. *)
Lemma split_whole (s : string) :
  Str.has_char sep s = false -> Str.split sep s = [s].
Proof.
  induction s as [|c s IH]; [reflexivity|].
  cbn [Str.has_char Str.split]. intros H.
  apply orb_false_iff in H. destruct H as [Hc Hs].
  rewrite (Ascii.eqb_sym c sep), Hc, (IH Hs). reflexivity.
Qed.

(** Joining the pieces with the separator gives the text back. *)
Lemma join_split (s : string) :
  Str.join (String sep "") (Str.split sep s) = s.
Proof.
  induction s as [|c s IH]; [reflexivity|].
  cbn [Str.split].
  destruct (Ascii.eqb_spec c sep) as [->|N].
  - destruct (Str.split sep s) as [|p ps] eqn:E;
      [exfalso; exact (split_not_nil s E)|].
    change (Str.join (String sep "") ("" :: p :: ps))
      with (String sep (Str.join (String sep "") (p :: ps))).
    rewrite IH. reflexivity.
  - destruct (Str.split sep s) as [|p ps] eqn:E;
      [exfalso; exact (split_not_nil s E)|].
    rewrite <- IH. destruct ps as [|q ps]; reflexivity.
Qed.

End SplitFacts.

(** A tag name made of a branch name and a slash-free date reads back
    as both. *)
Lemma parse_tag_name_built (branch_name today : string) :
  Str.has_char "/" today = false ->
  Archive.parse_tag_name ("archive/" ++ branch_name ++ "/" ++ today)
  = Archive.Archived branch_name today.
Proof.
  intros Htoday. unfold Archive.parse_tag_name.
  change ("archive/" ++ branch_name ++ "/" ++ today)
    with ("archive" ++ String "/" (branch_name ++ String "/" today)).
  replace (Str.startswith "archive/"
             ("archive" ++ String "/" (branch_name ++ String "/" today)))
    with true by reflexivity.
  rewrite !split_app, (split_whole _ _ Htoday).
  change (Str.split "/" "archive") with ["archive"].
  cbn [app].
  pose proof (split_not_nil "/" branch_name) as Hne.
  destruct (Str.split "/" branch_name) as [|p ps] eqn:E; [contradiction|].
  replace (2 <? List.length ("archive" :: (p :: ps) ++ [today]))%nat
    with true
    by (symmetry; apply Nat.ltb_lt; cbn; rewrite length_app; cbn; lia).
  unfold Lst.inner. cbn [tl].
  rewrite removelast_last, <- E.
  change "/" with (String "/" "") at 1. rewrite join_split.
  f_equal.
  change ("archive" :: Str.split "/" branch_name ++ [today])%list
    with (("archive" :: Str.split "/" branch_name) ++ [today])%list.
  apply last_last.
Qed.

(** X17. The name under which [create_archive_tag] archives a branch is
    read back by the archive listing: when the date holds no slash, the
    tag name parses to the branch name, slashes included, and to the
    date. *)
Theorem archive_tag_round_trip :
  forall (post : Archive.request -> Archive.post_response)
         (today owner repo branch_name commit_sha message : string)
         (requests : list Archive.request) (tag : Archive.archive_tag),
    Archive.create_archive_tag post today owner repo branch_name
      commit_sha message = (requests, Some tag) ->
    Str.has_char "/" today = false ->
    Archive.parse_tag_name (Archive.tag_name tag)
    = Archive.Archived branch_name (Archive.date tag).
Proof.
  intros post today owner repo branch_name commit_sha message requests
    tag H Htoday.
  unfold Archive.create_archive_tag in H.
  destruct (negb (Archive.accepted _)); [discriminate|].
  destruct (negb (Archive.accepted _)); [discriminate|].
  injection H as _ <-.
  exact (parse_tag_name_built branch_name today Htoday).
Qed.

Lemma archive_tag_round_trip_witness :
  Archive.parse_tag_name "archive/feature/login/2026-02-13"
  = Archive.Archived "feature/login" "2026-02-13".
Proof.
  apply (archive_tag_round_trip
           (fun _ => Archive.mk_post_response 201 "tagsha")
           "2026-02-13" "octo" "demo" "feature/login" "abc1234" "note"
           [Archive.CreateTag "octo" "demo"
              "archive/feature/login/2026-02-13" "note" "abc1234" "commit";
            Archive.CreateRef "octo" "demo"
              "refs/tags/archive/feature/login/2026-02-13" "tagsha"]
           {| Archive.tag_name := "archive/feature/login/2026-02-13";
              Archive.sha := "abc1234"; Archive.date := "2026-02-13" |}).
  - reflexivity.
  - reflexivity.
Defined.

(** A text that starts with a prefix is that prefix and a rest. *)
Lemma startswith_app (p s : string) :
  Str.startswith p s = true -> exists rest, s = p ++ rest.
Proof.
  revert s. induction p as [|a p IH]; intros s H.
  - exists s. reflexivity.
  - destruct s as [|b s]; [discriminate|].
    cbn [Str.startswith] in H. apply andb_true_iff in H.
    destruct H as [E H]. apply Ascii.eqb_eq in E. subst b.
    destruct (IH s H) as [rest ->]. exists rest. reflexivity.
Qed.

(** X18. Reading a tag name never indexes out of range.  A name that
    does not start with [archive/] is no archive; [archive/] followed by
    a text without a slash is the archive of the branch of that name
    with the date [Unknown]. *)
Theorem parse_tag_name_edges :
  forall (name : string),
    Archive.parse_tag_name name <> Archive.IndexError
    /\ (Str.startswith "archive/" name = false ->
        Archive.parse_tag_name name = Archive.NotArchive)
    /\ (Str.has_char "/" name = false ->
        Archive.parse_tag_name ("archive/" ++ name)
        = Archive.Archived name "Unknown").
Proof.
  intros name. split; [|split].
  - unfold Archive.parse_tag_name.
    destruct (Str.startswith "archive/" name) eqn:Hs; [|discriminate].
    destruct (2 <? _)%nat; [discriminate|].
    apply startswith_app in Hs. destruct Hs as [rest ->].
    change ("archive/" ++ rest) with ("archive" ++ String "/" rest).
    rewrite split_app. change (Str.split "/" "archive") with ["archive"].
    pose proof (split_not_nil "/" rest) as Hne.
    destruct (Str.split "/" rest) as [|p ps]; [contradiction|].
    discriminate.
  - intros Hs. unfold Archive.parse_tag_name. rewrite Hs. reflexivity.
  - intros Hn. unfold Archive.parse_tag_name.
    change ("archive/" ++ name) with ("archive" ++ String "/" name).
    replace (Str.startswith "archive/" ("archive" ++ String "/" name))
      with true by reflexivity.
    rewrite split_app, (split_whole _ _ Hn). reflexivity.
Qed.

Lemma parse_tag_name_edges_witness :
  Archive.parse_tag_name "archive/old-branch"
  = Archive.Archived "old-branch" "Unknown".
Proof.
  apply (proj2 (proj2 (parse_tag_name_edges "old-branch"))).
  reflexivity.
Defined.

(** X19. [create_archive_tag] returns a tag exactly when both POSTs are
    answered 200 or 201.  When the tag object is refused, no reference
    is requested.  The reference, when requested, is
    [refs/tags/archive/<branch>/<today>] and carries the sha of the
    created tag object; the returned dictionary names
    [archive/<branch>/<today>], the commit sha and the date. *)
Theorem create_archive_tag_protocol :
  forall (post : Archive.request -> Archive.post_response)
         (today owner repo branch_name commit_sha message : string),
    let tag_name := "archive/" ++ branch_name ++ "/" ++ today in
    let tag_request :=
      Archive.CreateTag owner repo tag_name message commit_sha "commit" in
    let ref_request :=
      Archive.CreateRef owner repo ("refs/tags/" ++ tag_name)
        (Archive.post_sha (post tag_request)) in
    let run :=
      Archive.create_archive_tag post today owner repo branch_name
        commit_sha message in
    (Archive.accepted (Archive.post_status (post tag_request)) = false ->
     run = ([tag_request], None))
    /\ (Archive.accepted (Archive.post_status (post tag_request)) = true ->
        fst run = [tag_request; ref_request])
    /\ (snd run <> None <->
        Archive.accepted (Archive.post_status (post tag_request)) = true
        /\ Archive.accepted (Archive.post_status (post ref_request)) = true)
    /\ (forall tag,
          snd run = Some tag ->
          tag = {| Archive.tag_name := tag_name;
                   Archive.sha := commit_sha;
                   Archive.date := today |}).
Proof.
  intros post today owner repo branch_name commit_sha message
    tag_name tag_request ref_request run.
  unfold run, Archive.create_archive_tag.
  fold tag_name. fold tag_request. fold ref_request.
  destruct (Archive.accepted (Archive.post_status (post tag_request)));
    cbn [negb].
  - destruct (Archive.accepted (Archive.post_status (post ref_request)));
      cbn [negb fst snd].
    + split; [discriminate|]. split; [reflexivity|]. split.
      * split; [intros _; split; reflexivity|discriminate].
      * intros tag H. injection H as <-. reflexivity.
    + split; [discriminate|]. split; [reflexivity|]. split.
      * split; [intros H; contradiction|intros [_ H]; discriminate].
      * discriminate.
  - cbn [fst snd]. split; [reflexivity|]. split; [discriminate|]. split.
    + split; [intros H; contradiction|intros [H _]; discriminate].
    + discriminate.
Qed.

Lemma create_archive_tag_protocol_witness :
  Archive.create_archive_tag
    (fun _ => Archive.mk_post_response 422 "") "2026-02-13" "octo" "demo"
    "old" "abc1234" "note"
  = ([Archive.CreateTag "octo" "demo" "archive/old/2026-02-13" "note"
        "abc1234" "commit"], None).
Proof.
  apply (proj1 (create_archive_tag_protocol
                  (fun _ => Archive.mk_post_response 422 "") "2026-02-13"
                  "octo" "demo" "old" "abc1234" "note")).
  reflexivity.
Defined.

(* ================================================================= *)
(** ** Dictionaries *)

Section DictFacts.

Context {V : Type}.

Lemma lookup_set_same (d : Dict.t V) (k : string) (v : V) :
  Dict.lookup (Dict.set d k v) k = Some v.
Proof.
  induction d as [|[k' v'] d IH]; cbn [Dict.set Dict.lookup].
  - rewrite String.eqb_refl. reflexivity.
  - destruct (String.eqb k' k) eqn:E; cbn [Dict.lookup]; rewrite E;
      [reflexivity|exact IH].
Qed.

Lemma lookup_set_other (d : Dict.t V) (k k' : string) (v : V) :
  k' <> k -> Dict.lookup (Dict.set d k v) k' = Dict.lookup d k'.
Proof.
  intros N. induction d as [|[k0 v0] d IH]; cbn [Dict.set Dict.lookup].
  - destruct (String.eqb_spec k k'); [congruence|reflexivity].
  - destruct (String.eqb_spec k0 k) as [->|N0]; cbn [Dict.lookup].
    + destruct (String.eqb_spec k k'); [congruence|reflexivity].
    + destruct (String.eqb k0 k'); [reflexivity|exact IH].
Qed.

End DictFacts.

(* ================================================================= *)
(** ** Scan history *)

Lemma last_n_length {A : Type} (n : nat) (l : list A) :
  List.length (Lst.last_n n l) = Nat.min n (List.length l).
Proof. unfold Lst.last_n. rewrite length_skipn. lia. Qed.

Lemma last_n_snoc {A : Type} (n : nat) (l : list A) (x : A) :
  Lst.last_n (S n) (l ++ [x]) = (Lst.last_n n l ++ [x])%list.
Proof.
  unfold Lst.last_n. rewrite length_app. cbn [List.length].
  replace (List.length l + 1 - S n)%nat with (List.length l - n)%nat by lia.
  rewrite skipn_app.
  replace (List.length l - n - List.length l)%nat with O by lia.
  reflexivity.
Qed.

Lemma last_item_snoc {A : Type} (l : list A) (x : A) :
  match (l ++ [x])%list with
  | [] => None
  | s :: rest => Some (last_item s rest)
  end = Some x.
Proof.
  destruct l as [|y l]; [reflexivity|]. cbn [app]. f_equal.
  revert y. induction l as [|z l IH]; intros y; [reflexivity|].
  cbn [app last_item]. apply IH.
Qed.

(** X20. After [save_scan] the history file holds at most 50 scans, and
    [get_latest_scan] returns the scan just saved, stamped with the
    time of the save, whatever the file held before. *)
Theorem save_scan_latest :
  forall (now : string) (data : Models.stored_scan)
         (file : option Models.history),
    (exists h,
        Models.save_scan now data file = Some h
        /\ (List.length (Models.scans h) <= 50)%nat)
    /\ Models.get_latest_scan (Models.save_scan now data file)
       = Some {| Models.scan_data := Models.scan_data data;
                 Models.timestamp := Some now |}.
Proof.
  intros now data file. split.
  - eexists. split; [reflexivity|]. cbn [Models.scans].
    rewrite last_n_length. lia.
  - unfold Models.get_latest_scan, Models.save_scan.
    cbn [Models.get_scan_history Models.scans].
    rewrite (last_n_snoc 49). apply last_item_snoc.
Qed.

(** X21. [save_scan] appends the stamped scan to the stored ones and
    drops scans only from the front, and only as many as exceed 50: a
    history of fewer than 50 scans loses nothing. *)
Theorem save_scan_keeps_recent :
  forall (now : string) (data : Models.stored_scan)
         (file : option Models.history),
    let old := Models.scans (Models.get_scan_history file) in
    let stamped := {| Models.scan_data := Models.scan_data data;
                      Models.timestamp := Some now |} in
    let new := Models.scans
                 (Models.get_scan_history
                    (Models.save_scan now data file)) in
    (exists dropped,
        (old ++ [stamped])%list = (dropped ++ new)%list
        /\ List.length dropped = (List.length old + 1 - 50)%nat)
    /\ ((List.length old < 50)%nat -> new = (old ++ [stamped])%list).
Proof.
  intros now data file old stamped new.
  assert (Hnew : new = Lst.last_n 50 (old ++ [stamped])) by reflexivity.
  split.
  - exists (firstn (List.length (old ++ [stamped]) - 50) (old ++ [stamped])).
    split.
    + rewrite Hnew. unfold Lst.last_n. symmetry. apply firstn_skipn.
    + rewrite length_firstn, length_app. cbn [List.length]. lia.
  - intros Hlt. rewrite Hnew. unfold Lst.last_n.
    rewrite length_app. cbn [List.length].
    replace (List.length old + 1 - 50)%nat with O by lia. reflexivity.
Qed.

Lemma save_scan_keeps_recent_witness :
  Models.scans
    (Models.get_scan_history
       (Models.save_scan "2026-02-13T00:00:00+00:00"
          {| Models.scan_data := DemoApp.scan; Models.timestamp := None |}
          None))
  = [{| Models.scan_data := DemoApp.scan;
        Models.timestamp := Some "2026-02-13T00:00:00+00:00" |}].
Proof.
  apply (proj2 (save_scan_keeps_recent "2026-02-13T00:00:00+00:00"
                  {| Models.scan_data := DemoApp.scan;
                     Models.timestamp := None |} None)).
  cbn. lia.
Defined.

(* ================================================================= *)
(** ** Analysis cache *)

(** X22. An analysis cached under a repository, a branch and a sha is
    what [get_cached_analysis] returns for them afterwards, with its
    [_cached_at] set to the time of caching; what is cached under any
    other key is left as it was. *)
Theorem cache_round_trip :
  forall (value : Type) (text : string -> value) (now : string)
         (repo branch commit_sha : string) (a : Models.analysis value)
         (file : option (Dict.t (Models.analysis value))),
    Models.get_cached_analysis value repo branch commit_sha
      (Models.cache_analysis value text now repo branch commit_sha a file)
    = Some (Dict.set a "_cached_at" (text now))
    /\ forall repo' branch' sha',
         Models.cache_key repo' branch' sha'
         <> Models.cache_key repo branch commit_sha ->
         Models.get_cached_analysis value repo' branch' sha'
           (Models.cache_analysis value text now repo branch commit_sha a
              file)
         = Models.get_cached_analysis value repo' branch' sha' file.
Proof.
  intros value text now repo branch commit_sha a file.
  unfold Models.get_cached_analysis, Models.cache_analysis.
  cbn [Models.get_analysis_cache]. split.
  - apply lookup_set_same.
  - intros repo' branch' sha' N. apply lookup_set_other. exact N.
Qed.

Lemma cache_round_trip_witness :
  Models.get_cached_analysis string "demo" "old" "abc"
    (Models.cache_analysis string (fun s => s) "2026-02-13" "demo" "new"
       "def" [("risk_level", "LOW")] None)
  = Models.get_cached_analysis string "demo" "old" "abc" None.
Proof.
  apply (proj2 (cache_round_trip string (fun s => s) "2026-02-13" "demo"
                  "new" "def" [("risk_level", "LOW")] None)).
  discriminate.
Defined.

(** X23. When repository names and shas hold no slash, two cache keys
    are equal only for the same repository, branch and sha, even for
    branch names with slashes. *)
Theorem cache_key_injective :
  forall (r1 b1 s1 r2 b2 s2 : string),
    Str.has_char "/" r1 = false -> Str.has_char "/" r2 = false ->
    Str.has_char "/" s1 = false -> Str.has_char "/" s2 = false ->
    Models.cache_key r1 b1 s1 = Models.cache_key r2 b2 s2 ->
    r1 = r2 /\ b1 = b2 /\ s1 = s2.
Proof.
  intros r1 b1 s1 r2 b2 s2 Hr1 Hr2 Hs1 Hs2 H.
  unfold Models.cache_key in H.
  change (r1 ++ String "/" (b1 ++ String "/" s1)
          = r2 ++ String "/" (b2 ++ String "/" s2)) in H.
  apply (f_equal (Str.split "/")) in H.
  rewrite !split_app in H.
  rewrite (split_whole _ _ Hr1), (split_whole _ _ Hr2),
    (split_whole _ _ Hs1), (split_whole _ _ Hs2) in H.
  cbn [app] in H. injection H as Hr H.
  apply app_inj_tail in H. destruct H as [Hb Hs].
  split; [exact Hr|]. split; [|exact Hs].
  rewrite <- (join_split "/" b1), <- (join_split "/" b2), Hb.
  reflexivity.
Qed.

Lemma cache_key_injective_witness :
  "demo" = "demo" /\ "feature/x" = "feature/x" /\ "abc" = "abc".
Proof.
  apply (cache_key_injective "demo" "feature/x" "abc"
           "demo" "feature/x" "abc"); reflexivity.
Defined.

(* ================================================================= *)
(** ** Preferences *)

Lemma fill_keeps (defaults prefs : Dict.t Models.pref) (k : string)
  (v : Models.pref) :
  Dict.lookup prefs k = Some v ->
  Dict.lookup (Models.fill defaults prefs) k = Some v.
Proof.
  revert prefs. induction defaults as [|[k0 v0] rest IH]; intros prefs H;
    [exact H|].
  cbn [Models.fill]. unfold Dict.mem.
  destruct (Dict.lookup prefs k0) eqn:E; cbn [negb]; [apply IH; exact H|].
  apply IH. rewrite lookup_set_other; [exact H|].
  intros ->. rewrite E in H. discriminate.
Qed.

Lemma fill_adds (defaults prefs : Dict.t Models.pref) (k : string) :
  In k (map fst defaults) ->
  Dict.lookup (Models.fill defaults prefs) k <> None.
Proof.
  revert prefs. induction defaults as [|[k0 v0] rest IH]; intros prefs Hin;
    [contradiction|].
  cbn [Models.fill]. unfold Dict.mem.
  destruct Hin as [<-|Hin].
  - cbn [fst]. destruct (Dict.lookup prefs k0) as [v|] eqn:E; cbn [negb].
    + rewrite (fill_keeps rest prefs k0 v E). discriminate.
    + rewrite (fill_keeps rest (Dict.set prefs k0 v0) k0 v0
                 (lookup_set_same _ _ _)).
      discriminate.
  - destruct (negb _); apply IH; exact Hin.
Qed.

(** X24. The preferences returned have every key of the defaults, and a
    key stored in a non-empty preferences file keeps its stored value.
    A missing or empty file yields the defaults and is written with
    them; a non-empty file is left as it is. *)
Theorem get_preferences_defaults :
  forall (file : option (Dict.t Models.pref)),
    (forall k, In k (map fst Models.DEFAULT_PREFS) ->
       Dict.lookup (fst (Models.get_preferences file)) k <> None)
    /\ (forall stored k v,
          file = Some stored ->
          Dict.lookup stored k = Some v ->
          Dict.lookup (fst (Models.get_preferences file)) k = Some v)
    /\ (file = None \/ file = Some [] ->
        Models.get_preferences file
        = (Models.DEFAULT_PREFS, Some Models.DEFAULT_PREFS))
    /\ (forall stored,
          file = Some stored -> stored <> [] ->
          snd (Models.get_preferences file) = file).
Proof.
  intros file. split; [|split; [|split]].
  - intros k Hin. unfold Models.get_preferences.
    destruct (negb (Dict.truthy _)); cbn [fst]; apply fill_adds; exact Hin.
  - intros stored k v -> Hk. unfold Models.get_preferences.
    destruct stored as [|item stored]; [discriminate|].
    cbn [Dict.truthy negb fst]. apply fill_keeps. exact Hk.
  - intros [->| ->]; reflexivity.
  - intros stored -> N. unfold Models.get_preferences.
    destruct stored as [|item stored]; [contradiction|]. reflexivity.
Qed.

Lemma get_preferences_defaults_witness :
  Dict.lookup
    (fst (Models.get_preferences
            (Some [("ai_model", Models.PText "claude-opus")])))
    "ai_model"
  = Some (Models.PText "claude-opus").
Proof.
  apply (proj1 (proj2 (get_preferences_defaults
                         (Some [("ai_model", Models.PText "claude-opus")])))
           [("ai_model", Models.PText "claude-opus")]);
    reflexivity.
Defined.

(* ================================================================= *)
(** ** Action log *)

(** X25. Logging a sequence of actions one after the other leaves a log
    that reads back as the log read before followed by those actions in
    the order logged, whether the file was at first missing, a bare
    list, or a dictionary with or without [actions]; after a call the
    file is a dictionary holding [actions]. *)
Theorem log_action_appends :
  forall (entries : list Models.action) (file : option Models.log_json),
    Models.get_action_log
      (fold_left
         (fun f e =>
            Models.log_action (Models.action_timestamp e)
              (Models.action_type e) (Models.action_repo e)
              (Models.action_branch e) (Models.action_details e) f)
         entries file)
    = (Models.get_action_log file ++ entries)%list
    /\ forall e,
       exists actions,
         Models.log_action (Models.action_timestamp e)
           (Models.action_type e) (Models.action_repo e)
           (Models.action_branch e) (Models.action_details e) file
         = Some (Models.LogDict (Some actions)).
Proof.
  intros entries file. split.
  - revert file. induction entries as [|e entries IH]; intros file.
    + cbn. symmetry. apply app_nil_r.
    + cbn [fold_left]. rewrite IH.
      unfold Models.log_action at 1. cbn [Models.get_action_log get].
      rewrite <- app_assoc. destruct e; reflexivity.
  - intros e. eexists. reflexivity.
Qed.

(* ================================================================= *)
(** ** The model's answer *)

Lemma startswith_app_r (p s t : string) :
  Str.startswith p s = true -> Str.startswith p (s ++ t) = true.
Proof.
  revert s. induction p as [|a p IH]; intros s H; [reflexivity|].
  destruct s as [|b s]; [discriminate|].
  cbn [Str.startswith append] in *.
  apply andb_true_iff in H. destruct H as [E H].
  rewrite E, (IH s H). reflexivity.
Qed.

(** X26. A fenced answer, made of a first line that starts with the
    fence, a body, and a last line, is reduced to its body, line feeds
    of the body included; an answer that does not start with the fence
    is left as it is; an answer of one line that starts with the fence
    is reduced to the empty text. *)
Theorem unfence_body :
  forall (first body final : string),
    (Str.startswith "```" first = true ->
     Str.has_char "010" first = false ->
     Str.has_char "010" final = false ->
     Analyzer.unfence
       (first ++ String "010" (body ++ String "010" final))
     = body)
    /\ (Str.startswith "```" body = false -> Analyzer.unfence body = body)
    /\ (Str.startswith "```" first = true ->
        Str.has_char "010" first = false ->
        Analyzer.unfence first = "").
Proof.
  intros first body final. split; [|split].
  - intros Hs Hf Hl. unfold Analyzer.unfence.
    rewrite (startswith_app_r _ _ _ Hs).
    rewrite !split_app, (split_whole _ _ Hf), (split_whole _ _ Hl).
    cbn [app]. unfold Lst.inner. cbn [tl].
    rewrite removelast_last. apply join_split.
  - intros Hs. unfold Analyzer.unfence. rewrite Hs. reflexivity.
  - intros Hs Hf. unfold Analyzer.unfence.
    rewrite Hs, (split_whole _ _ Hf). reflexivity.
Qed.

Lemma unfence_body_witness :
  Analyzer.unfence
    ("```json" ++ String "010" ("{}" ++ String "010" "```"))
  = "{}".
Proof.
  apply (proj1 (unfence_body "```json" "{}" "```")); reflexivity.
Defined.

(** X27. From the message on, [analyze_branch] raises exactly when the
    answer decodes to a JSON value that is not an object, and then a
    [TypeError]; an answer that does not decode never raises and yields
    the fallback analysis, assessed UNCLEAR with MEDIUM risk and
    carrying the answer as its summary; whatever is returned holds
    [_usage] with the token counts of the message and the model. *)
Theorem analyze_branch_outcomes :
  forall (value : Type) (v_text : string -> value) (v_none : value)
         (v_usage : Z -> Z -> string -> value) (strip : string -> string)
         (loads : string -> option (option (Dict.t value)))
         (message : Analyzer.api_message) (branch_name model : string),
    let answer := Analyzer.unfence (strip (Analyzer.text message)) in
    let run :=
      Analyzer.analyze_branch value v_text v_none v_usage strip loads
        message branch_name model in
    (forall e, run = inl e <-> e = TypeError /\ loads answer = Some None)
    /\ (loads answer = None ->
        exists d,
          run = inr d
          /\ Dict.lookup d "feature_assessment" = Some (v_text "UNCLEAR")
          /\ Dict.lookup d "risk_level" = Some (v_text "MEDIUM")
          /\ Dict.lookup d "plain_english_summary" = Some (v_text answer))
    /\ (forall d,
          run = inr d ->
          Dict.lookup d "_usage"
          = Some (v_usage (Analyzer.input_tokens message)
                    (Analyzer.output_tokens message) model)).
Proof.
  intros value v_text v_none v_usage strip loads message branch_name
    model answer run.
  unfold run, Analyzer.analyze_branch. fold answer.
  destruct (loads answer) as [[d|]|]; cbn [ret raise].
  - split; [|split].
    + intros e. split; [discriminate|intros [_ H]; discriminate].
    + discriminate.
    + intros d' H. injection H as <-. apply lookup_set_same.
  - split; [|split].
    + intros e. split.
      * intros H. injection H as <-. split; reflexivity.
      * intros [-> _]. reflexivity.
    + discriminate.
    + discriminate.
  - split; [|split].
    + intros e. split; [discriminate|intros [_ H]; discriminate].
    + intros _. eexists. split; [reflexivity|].
      repeat split; reflexivity.
    + intros d' H. injection H as <-. reflexivity.
Qed.

Lemma analyze_branch_outcomes_witness :
  exists d,
    Analyzer.analyze_branch string (fun s => s) "null"
      (fun _ _ m => m) (fun s => s) (fun _ => None)
      (Analyzer.mk_api_message "I cannot say." 120 30) "old" "haiku"
    = inr d
    /\ Dict.lookup d "risk_level" = Some "MEDIUM".
Proof.
  destruct (proj1 (proj2 (analyze_branch_outcomes string (fun s => s)
                            "null" (fun _ _ m => m) (fun s => s)
                            (fun _ => None)
                            (Analyzer.mk_api_message "I cannot say." 120 30)
                            "old" "haiku")) eq_refl)
    as (d & Hd & _ & Hrisk & _).
  exists d. split; assumption.
Defined.

(* ================================================================= *)
(** ** Session cost *)

(** X28. After any sequence of [add] calls on a fresh [SessionCost],
    [to_dict] reports the sum of the input tokens, the sum of the output
    tokens and the number of calls; the cost it reports is the rounded
    running total. *)
Theorem session_cost_totals :
  forall (float : Type) (zero : float)
         (add_float : float -> float -> float) (round4 : float -> float)
         (calls : list (Z * Z * float)),
    let final :=
      fold_left
        (fun self '(i, o, c) => Models.add float add_float self i o c)
        calls (Models.new_session_cost float zero) in
    Models.to_dict float round4 final
    = (Lst.sum (map (fun '(i, _, _) => i) calls),
       Lst.sum (map (fun '(_, o, _) => o) calls),
       round4 (fold_left add_float (map snd calls) zero),
       Z.of_nat (List.length calls)).
Proof.
  intros float zero add_float round4 calls final.
  unfold final, Models.to_dict, Lst.sum.
  assert (G : forall (self : Models.SessionCost float) i0 o0,
             let final :=
               fold_left
                 (fun self '(i, o, c) =>
                    Models.add float add_float self i o c)
                 calls self in
             Models.total_input_tokens float self = i0 ->
             Models.total_output_tokens float self = o0 ->
             Models.total_input_tokens float final
             = fold_left Z.add (map (fun '(i, _, _) => i) calls) i0
             /\ Models.total_output_tokens float final
                = fold_left Z.add (map (fun '(_, o, _) => o) calls) o0
             /\ Models.total_cost float final
                = fold_left add_float (map snd calls)
                    (Models.total_cost float self)
             /\ Models.analyses_count float final
                = Models.analyses_count float self
                  + Z.of_nat (List.length calls)).
  { induction calls as [|[[i o] c] calls IH]; intros self i0 o0.
    - cbn. intros -> ->. repeat split. lia.
    - cbn [fold_left map List.length snd]. intros Hi Ho.
      destruct (IH (Models.add float add_float self i o c)
                  (i0 + i) (o0 + o)) as (H1 & H2 & H3 & H4).
      + cbn. rewrite Hi. reflexivity.
      + cbn. rewrite Ho. reflexivity.
      + rewrite H1, H2, H3, H4. cbn. repeat split. lia. }
  destruct (G (Models.new_session_cost float zero) 0 0 eq_refl eq_refl)
    as (H1 & H2 & H3 & H4).
  rewrite H1, H2, H3, H4. reflexivity.
Qed.
